(** * Trip length distribution builder

    A shallow embedding of
    [normits_demand/tools/trip_length_distributions/builder.py]
    (class [TripLengthDistributionBuilder]) and the properties of its
    geo filter, segment filter, cost distribution builder and the
    [build_tld] loop.

    Numbers.  The survey's distances and trip counts are floating point
    columns; they are idealised here as exact rationals ([Q]), compared
    with [Qeq].  What numpy does on a division by zero (an infinity or a
    NaN instead of an exception) is kept, in the type [npfloat].

    Tables.  A [pandas.DataFrame] is a list of rows.  A survey row holds
    its categorical columns in a finite map from the column name to a
    cell, and its two numeric columns (the trip distance and the trip
    count) as fields. *)

From Stdlib Require Import QArith Qminmax Lqa Lia ZArith List String.
From Stdlib Require Import PrimFloat SpecFloat FloatOps.
From stdpp Require Import base option list strings pretty gmap.
Import ListNotations.

Local Open Scope string_scope.
Local Open Scope list_scope.

(** ** Exceptions and results *)

Inductive exn : Type :=
  | ValueError (msg : string)
  | KeyError (key : string)
  | TypeError (msg : string)
  | IndexError (msg : string).

Inductive result (A : Type) : Type :=
  | Ok (a : A)
  | Raise (e : exn).
Arguments Ok {A} a.
Arguments Raise {A} e.

Definition rbind {A B : Type} (m : result A) (k : A -> result B) : result B :=
  match m with
  | Ok a => k a
  | Raise e => Raise e
  end.

Definition rmap {A B : Type} (f : A -> B) (m : result A) : result B :=
  rbind m (fun a => Ok (f a)).

Notation "'try' x <- m ; k" := (rbind m (fun x => k))
  (at level 10, x name, m at level 100, k at level 200,
   format "'[v' 'try'  x  <-  m ;  '/' k ']'").

Definition is_ok {A : Type} (m : result A) : bool :=
  match m with Ok _ => true | Raise _ => false end.

(** ** Cells, rows and tables *)

(** A value of a categorical column or of a segment parameter: an integer
    code, a string, or numpy's NaN. *)
Inductive cell : Type :=
  | CInt (z : Z)
  | CStr (s : string)
  | CNaN.

#[global] Instance cell_eq_dec : EqDecision cell.
Proof. solve_decision. Defined.

Record row : Type := mk_row {
  attrs : gmap string cell;
  trip_dist : Q;
  trip_count : Q
}.

Abbreviation DataFrame := (list row).

Definition col (r : row) (name : string) : option cell := attrs r !! name.

Definition set_attrs (r : row) (a : gmap string cell) : row :=
  {| attrs := a; trip_dist := trip_dist r; trip_count := trip_count r |}.

Definition set_dist (r : row) (d : Q) : row :=
  {| attrs := attrs r; trip_dist := d; trip_count := trip_count r |}.

(** ** Numbers *)

Local Open Scope Q_scope.

Definition Qltb (a b : Q) : bool := negb (Qle_bool b a).

Fixpoint Qsum (l : list Q) : Q :=
  match l with
  | [] => 0
  | x :: t => x + Qsum t
  end.

(** The result of a numpy division: finite, an infinity, or NaN. *)
Inductive npfloat : Type :=
  | Finite (q : Q)
  | PosInf
  | NegInf
  | NaN.

Definition is_finite (x : npfloat) : bool :=
  match x with Finite _ => true | _ => false end.

(** [a / b] on numpy scalars: a zero divisor gives a signed infinity, or
    NaN for [0 / 0], and only a warning. *)
Definition np_divide (a b : Q) : npfloat :=
  if Qeq_bool b 0 then
    (if Qltb 0 a then PosInf else if Qltb a 0 then NegInf else NaN)
  else Finite (a / b).

(** [np.mean([lower, upper])] *)
Definition np_mean2 (lower upper : Q) : Q := (lower + upper) / 2.

(** Modelled from the spec: [func_utils.pairwise] is not part of the
    sources at hand; "for each consecutive edge pair (lower, upper)". *)
Fixpoint pairwise (l : list Q) : list (Q * Q) :=
  match l with
  | [] => []
  | a :: t =>
      match t with
      | [] => []
      | b :: _ => (a, b) :: pairwise t
      end
  end.

(** ** Collaborators

    The enumerations and value objects of [normits_demand.core] and
    [tld_enums] are not part of the sources at hand; they are taken as
    they are used. *)

(** Modelled from the spec: the enumeration [tld_enums.TripFilter] is not
    part of the sources at hand; "trip-filter mode (OD/O/D)".  The three
    members are the ones the builder names; [TRIP_other] stands for any
    further member. *)
Inductive TripFilter : Type :=
  | TRIP_OD
  | TRIP_O
  | TRIP_D
  | TRIP_other (name : string).

#[global] Instance TripFilter_eq_dec : EqDecision TripFilter.
Proof. solve_decision. Defined.

(** [str(trip_filter_type)], as the f-strings of the builder print it. *)
Definition TripFilter_str (t : TripFilter) : string :=
  "TripFilter." ++
  match t with
  | TRIP_OD => "TRIP_OD"
  | TRIP_O => "TRIP_O"
  | TRIP_D => "TRIP_D"
  | TRIP_other name => name
  end.

(** [tld_enums.GeoArea]: an area and the codes it resolves to. *)
Record GeoArea : Type := mk_geo_area {
  geo_value : string;
  get_gors : list cell
}.

(** A segment parameter mapping [{dimension_name: value}], in the order
    of the dictionary's items. *)
Abbreviation segment_params := (list (string * cell)).

(** [segment_params.get(key, None)] *)
Fixpoint params_get (key : string) (params : segment_params) : option cell :=
  match params with
  | [] => None
  | (k, v) :: rest => if decide (k = key) then Some v else params_get key rest
  end.

(** [nd_core.SegmentationLevel]: iterating it gives the segment
    parameter mappings, and it names the file of a segment. *)
Record SegmentationLevel : Type := mk_segmentation {
  segmentation_name : string;
  segments : list segment_params;
  generate_file_name : segment_params -> option cell -> string -> string
}.

Record CostDistribution (CostUnits : Type) : Type := mk_cost_distribution {
  edges : list Q;
  band_trips : list Q;
  cost_units : CostUnits;
  band_mean_cost : list npfloat;
  sample_size : nat
}.
Arguments mk_cost_distribution {CostUnits}.
Arguments edges {CostUnits}.
Arguments band_trips {CostUnits}.
Arguments cost_units {CostUnits}.
Arguments band_mean_cost {CostUnits}.
Arguments sample_size {CostUnits}.

Class Collaborators : Type := {
  (** [nd_core.CostUnits] and its [get_conversion_factor] *)
  CostUnits : Type;
  MILES : CostUnits;
  get_conversion_factor : CostUnits -> CostUnits -> Q;
  (** [TripFilter.is_od_type] *)
  is_od_type : TripFilter -> bool;
  (** [nd_core.UserClass(seg_val).get_purposes()] *)
  user_class_purposes : cell -> result (list cell);
  (** [CostDistribution.to_df(additional_cols=...)] *)
  ExportRow : Type;
  to_df : CostDistribution CostUnits -> segment_params -> list ExportRow
}.

(** The column names [tld_generator] sets on the builder. *)
Definition purpose_col : string := "p".
Definition tp_col : string := "tp".
Definition trip_origin_col : string := "trip_origin".

Section Builder.

Context `{env : Collaborators}.

(** [self.input_cost_units = nd_core.CostUnits.MILES] *)
Definition input_cost_units : CostUnits := MILES.

(** ** The geo filter *)

Definition orig_gor_col : string := "TripOrigGOR_B02ID".
Definition dest_gor_col : string := "TripDestGOR_B02ID".

(** [output_data[self.trip_origin_col] == "hb_to"] *)
Definition hb_to_mask (r : row) : bool :=
  bool_decide (col r trip_origin_col = Some (CStr "hb_to")).

(** The transposition of origin and destination on the rows of the mask. *)
Definition transpose_od (r : row) : row :=
  if hb_to_mask r then
    let temp_orig := col r orig_gor_col in
    let temp_dest := col r dest_gor_col in
    set_attrs r
      (partial_alter (fun _ => temp_orig) dest_gor_col
         (partial_alter (fun _ => temp_dest) orig_gor_col (attrs r)))
  else r.

(** [output_data[column].isin(geo_area.get_gors())] *)
Definition isin_gors (geo_area : GeoArea) (column : string) (r : row) : bool :=
  from_option (fun c => bool_decide (c ∈ get_gors geo_area)) false (col r column).

Definition _apply_od_geo_filter
    (nts_data : DataFrame) (geo_area : GeoArea) (trip_filter_type : TripFilter)
  : result DataFrame :=
  let output_data := map transpose_od nts_data in
  try flags <-
    (match trip_filter_type with
     | TRIP_OD => Ok (true, true)
     | TRIP_O => Ok (true, false)
     | TRIP_D => Ok (false, true)
     | _ => Raise (ValueError ("Don't know how to apply the OD filter "
                                 ++ TripFilter_str trip_filter_type))
     end);
  let filter_orig := fst flags in
  let filter_dest := snd flags in
  let output_data :=
    if (filter_orig : bool)
    then List.filter (isin_gors geo_area orig_gor_col) output_data
    else output_data in
  let output_data :=
    if (filter_dest : bool)
    then List.filter (isin_gors geo_area dest_gor_col) output_data
    else output_data in
  Ok output_data.

Definition _apply_geo_filter
    (nts_data : DataFrame) (geo_area : GeoArea) (trip_filter_type : TripFilter)
  : result DataFrame :=
  if is_od_type trip_filter_type then
    _apply_od_geo_filter nts_data geo_area trip_filter_type
  else
    Raise (ValueError ("Don't know how to apply to filter '"
                         ++ TripFilter_str trip_filter_type ++ "'")).

(** ** The segment filter *)

(** A value of the filter dictionary: a single value or a list of them. *)
Inductive filter_val : Type :=
  | FScalar (v : cell)
  | FList (vs : list cell).

(** Modelled from the spec: [pd_utils.filter_df] is not part of the
    sources at hand.  A single value is an "exact-match equality filter
    on the corresponding column", a list of values a "membership test";
    a row that has no such column does not match. *)
Definition value_passes (f : filter_val) (c : cell) : bool :=
  match f with
  | FScalar v => bool_decide (c = v)
  | FList vs => bool_decide (c ∈ vs)
  end.

Definition column_passes (r : row) (column : string) (f : filter_val) : bool :=
  from_option (value_passes f) false (col r column).

Definition row_passes (df_filter : gmap string filter_val) (r : row) : bool :=
  bool_decide (map_Forall (fun k f => column_passes r k f = true) df_filter).

(** Modelled from the spec: [pd_utils.filter_df] is not part of the
    sources at hand; "all filters are conjunctive (AND)", "returns a
    filtered copy". *)
Definition filter_df (df : DataFrame) (df_filter : gmap string filter_val)
  : DataFrame :=
  List.filter (row_passes df_filter) df.

Definition to_dict : gmap string (list cell) :=
  {[ "hb" := [CStr "hb_to"; CStr "hb_from"]; "nhb" := [CStr "nhb"] ]}.

(** [to_dict[seg_val]] *)
Definition to_dict_item (seg_val : cell) : result (list cell) :=
  match seg_val with
  | CStr s =>
      match to_dict !! s with
      | Some l => Ok l
      | None => Raise (KeyError s)
      end
  | _ => Raise (KeyError "")
  end.

(** [np.isnan(seg_val)] *)
Definition np_isnan (seg_val : cell) : result bool :=
  match seg_val with
  | CNaN => Ok true
  | CInt _ => Ok false
  | CStr _ => Raise (TypeError "ufunc 'isnan' not supported for the input types")
  end.

(** The loop that builds the filter dictionary. *)
Fixpoint build_df_filter
    (items : segment_params) (df_filter : gmap string filter_val)
  : result (gmap string filter_val) :=
  match items with
  | [] => Ok df_filter
  | (seg_name, seg_val) :: rest =>
      if decide (seg_name = "trip_origin") then
        try l <- to_dict_item seg_val;
        build_df_filter rest (<[seg_name := FList l]> df_filter)
      else if decide (seg_name = "uc") then
        try purposes <- user_class_purposes seg_val;
        build_df_filter rest (<[purpose_col := FList purposes]> df_filter)
      else if decide (seg_name = "soc" \/ seg_name = "ns") then
        try nan <- np_isnan seg_val;
        if (nan : bool) then build_df_filter rest df_filter
        else build_df_filter rest (<[seg_name := FScalar seg_val]> df_filter)
      else
        build_df_filter rest (<[seg_name := FScalar seg_val]> df_filter)
  end.

Definition _filter_nts_data (nts_data : DataFrame) (params : segment_params)
  : result DataFrame :=
  try df_filter <- build_df_filter params ∅;
  Ok (filter_df nts_data df_filter).

(** [segmentation.generate_file_name(...)] with the segment's trip origin *)
Definition _generate_tld_name
    (segmentation : SegmentationLevel) (params : segment_params) : string :=
  let trip_origin := params_get "trip_origin" params in
  generate_file_name segmentation params trip_origin "cost_distribution".

(** ** The cost distribution builder *)

(** [data[trip_dist_col] *= conv_factor] *)
Definition convert_distances (conv_factor : Q) (data : DataFrame) : DataFrame :=
  map (fun r => set_dist r (trip_dist r * conv_factor)) data.

(** [(data[trip_dist_col] > lower) & (data[trip_dist_col] < upper)] *)
Definition band_mask (lower upper : Q) (r : row) : bool :=
  Qltb lower (trip_dist r) && Qltb (trip_dist r) upper.

(** [band_data[trip_count_col].values.sum()] *)
Definition band_trips_of (band_data : DataFrame) : Q :=
  Qsum (map trip_count band_data).

(** [np.sum(band_data[trip_count_col].values * band_data[trip_dist_col].values)] *)
Definition band_distance_of (band_data : DataFrame) : Q :=
  Qsum (map (fun r => trip_count r * trip_dist r) band_data).

(** The body of the loop over the bands: the trips and the mean cost of
    one band. *)
Definition band_values (data : DataFrame) (band : Q * Q) : Q * npfloat :=
  let '(lower, upper) := band in
  let band_data := List.filter (band_mask lower upper) data in
  let band_trips := band_trips_of band_data in
  let band_distance := band_distance_of band_data in
  let band_mean_cost :=
    if Qle_bool band_distance 0 then Finite (np_mean2 lower upper)
    else np_divide band_distance band_trips in
  (band_trips, band_mean_cost).

Definition _build_cost_distribution
    (data : DataFrame) (band_edges : list Q) (output_cost_units : CostUnits)
  : CostDistribution CostUnits :=
  let sample_size := length data in
  let conv_factor := get_conversion_factor input_cost_units output_cost_units in
  let data := convert_distances conv_factor data in
  let all_bands := map (band_values data) (pairwise band_edges) in
  {| edges := band_edges;
     band_trips := map fst all_bands;
     cost_units := output_cost_units;
     band_mean_cost := map snd all_bands;
     sample_size := sample_size |}.

(** ** The loop of [build_tld] *)

(** A line of the sample size log: the segment's parameters, with the
    keys ["records"] and ["status"] added. *)
Record log_line : Type := mk_log_line {
  log_params : segment_params;
  records : nat;
  status : string
}.

(** What [LOG.warning] is given for an under-sampled segment. *)
Record warning : Type := mk_warning {
  warning_params : segment_params;
  warning_threshold : Z;
  warning_sample_size : nat
}.

(** The three collections the loop fills, and the warnings it logs. *)
Record tld_state : Type := mk_tld_state {
  name_to_distribution : gmap string (CostDistribution CostUnits);
  sample_size_log : list log_line;
  full_export : list (list ExportRow);
  warnings : list warning
}.

Definition init_state : tld_state :=
  {| name_to_distribution := ∅;
     sample_size_log := [];
     full_export := [];
     warnings := [] |}.

(** [np.array([min_bounds[0]] + max_bounds.tolist())], where
    [min_bounds] and [max_bounds] are the columns ["lower"] and
    ["upper"] of the bands table. *)
Definition band_edges_of (bands : list (Q * Q)) : result (list Q) :=
  let min_bounds := map fst bands in
  let max_bounds := map snd bands in
  match min_bounds with
  | [] => Raise (IndexError "index 0 is out of bounds for axis 0 with size 0")
  | first :: _ => Ok (first :: max_bounds)
  end.

(** One turn of the loop over the segments. *)
Definition build_tld_segment
    (tld_data : DataFrame) (bands : list (Q * Q))
    (segmentation : SegmentationLevel) (cost_units : CostUnits)
    (sample_threshold : Z) (st : tld_state) (params : segment_params)
  : result tld_state :=
  try data_subset <- _filter_nts_data tld_data params;
  let sample_size := length data_subset in
  if (Z.of_nat sample_size <? sample_threshold)%Z then
    let log_line := mk_log_line params sample_size "Failed" in
    (* [LOG.warning(...)], then [continue]: the line is not appended *)
    Ok {| name_to_distribution := name_to_distribution st;
          sample_size_log := sample_size_log st;
          full_export := full_export st;
          warnings := warnings st
                        ++ [mk_warning params sample_threshold sample_size] |}
  else
    let log_line := mk_log_line params sample_size "Passed" in
    try band_edges <- band_edges_of bands;
    let tld := _build_cost_distribution data_subset band_edges cost_units in
    let tld_name := _generate_tld_name segmentation params in
    Ok {| name_to_distribution := <[tld_name := tld]> (name_to_distribution st);
          sample_size_log := sample_size_log st ++ [log_line];
          full_export := full_export st ++ [to_df tld params];
          warnings := warnings st |}.

Fixpoint build_tld_loop
    (tld_data : DataFrame) (bands : list (Q * Q))
    (segmentation : SegmentationLevel) (cost_units : CostUnits)
    (sample_threshold : Z) (st : tld_state) (todo : list segment_params)
  : result tld_state :=
  match todo with
  | [] => Ok st
  | params :: rest =>
      try st' <- build_tld_segment tld_data bands segmentation cost_units
                   sample_threshold st params;
      build_tld_loop tld_data bands segmentation cost_units sample_threshold
        st' rest
  end.

(** [pd.concat(objs, ignore_index=True)] *)
Definition pd_concat {A : Type} (objs : list (list A)) : result (list A) :=
  match objs with
  | [] => Raise (ValueError "No objects to concatenate")
  | _ => Ok (concat objs)
  end.

(** What [build_tld] returns, and the warnings it has logged. *)
Record tld_output : Type := mk_tld_output {
  out_name_to_distribution : gmap string (CostDistribution CostUnits);
  out_sample_size_log : list log_line;
  out_full_export : list ExportRow;
  out_warnings : list warning
}.

Definition build_tld
    (tld_data : DataFrame) (bands : list (Q * Q))
    (segmentation : SegmentationLevel) (cost_units : CostUnits)
    (sample_threshold : Z)
  : result tld_output :=
  try st <- build_tld_loop tld_data bands segmentation cost_units
              sample_threshold init_state (segments segmentation);
  try export <- pd_concat (full_export st);
  Ok {| out_name_to_distribution := name_to_distribution st;
        out_sample_size_log := sample_size_log st;
        out_full_export := export;
        out_warnings := warnings st |}.

(** *** What the loop is expected to collect *)

(** The rows the segment filter leaves for a segment. *)
Definition segment_subset (tld_data : DataFrame) (params : segment_params)
  : DataFrame :=
  match _filter_nts_data tld_data params with
  | Ok data_subset => data_subset
  | Raise _ => []
  end.

(** The segment has at least [sample_threshold] rows. *)
Definition segment_passes
    (tld_data : DataFrame) (sample_threshold : Z) (params : segment_params)
  : bool :=
  is_ok (_filter_nts_data tld_data params)
  && negb (Z.of_nat (length (segment_subset tld_data params)) <? sample_threshold)%Z.

Definition segment_fails
    (tld_data : DataFrame) (sample_threshold : Z) (params : segment_params)
  : bool :=
  negb (segment_passes tld_data sample_threshold params).

(** The cost distribution of a segment. *)
Definition segment_tld
    (tld_data : DataFrame) (bands : list (Q * Q)) (cost_units : CostUnits)
    (params : segment_params) : CostDistribution CostUnits :=
  _build_cost_distribution (segment_subset tld_data params)
    (match band_edges_of bands with Ok band_edges => band_edges | Raise _ => [] end)
    cost_units.

Definition passed_line (tld_data : DataFrame) (params : segment_params)
  : log_line :=
  mk_log_line params (length (segment_subset tld_data params)) "Passed".

Definition failed_line (tld_data : DataFrame) (params : segment_params)
  : log_line :=
  mk_log_line params (length (segment_subset tld_data params)) "Failed".

(** The sample size log as the specification words it: a line for
    every segment, passed or failed, in the order of the segments. *)
Definition spec_sample_size_log
    (tld_data : DataFrame) (sample_threshold : Z) (todo : list segment_params)
  : list log_line :=
  map (fun params =>
         if segment_passes tld_data sample_threshold params
         then passed_line tld_data params
         else failed_line tld_data params)
      todo.

End Builder.

(** ** Predicates the properties are stated with *)

(** The edges are strictly increasing. *)
Fixpoint strictly_increasing (l : list Q) : bool :=
  match l with
  | [] => true
  | a :: t =>
      match t with
      | [] => true
      | b :: _ => Qltb a b && strictly_increasing t
      end
  end.

(** The distance is one of the edges. *)
Definition on_edge (band_edges : list Q) (d : Q) : bool :=
  existsb (fun e => Qeq_bool d e) band_edges.


(** The consecutive edge pairs whose mask selects the row. *)
Definition selecting_bands (band_edges : list Q) (r : row) : list (Q * Q) :=
  List.filter (fun b => band_mask (fst b) (snd b) r) (pairwise band_edges).

(** The smallest value of a column, [first] when the column is empty. *)
Definition column_min (first : Q) (column : list Q) : Q :=
  fold_right Qmin first column.

(** The edge array as the specification words it: the minimum of the
    column ["lower"] before the values of the column ["upper"]. *)
Definition spec_band_edges (bands : list (Q * Q)) : result (list Q) :=
  match map fst bands with
  | [] => Raise (IndexError "index 0 is out of bounds for axis 0 with size 0")
  | first :: rest => Ok (column_min first rest :: map snd bands)
  end.

(** The message contains the text. *)
Definition mentions (msg part : string) : Prop :=
  exists before after : string, msg = (before ++ part ++ after)%string.


(** Two mean costs that are the same number. *)
Definition npfloat_eq (x y : npfloat) : Prop :=
  match x, y with
  | Finite a, Finite b => a == b
  | PosInf, PosInf | NegInf, NegInf | NaN, NaN => True
  | _, _ => False
  end.

(** ** The arithmetic of the numeric columns

    [_build_cost_distribution] computes with the numbers its columns
    hold: float64 in the survey extract.  Above it is given on exact
    rationals.  Here the loop over the bands is given for any
    arithmetic, with two instances: [Qarith], the exact rationals, for
    which it is the loop of [_build_cost_distribution] above, and [F64],
    the IEEE 754 binary64 numbers of numpy. *)

Record Arith : Type := mk_arith {
  (** the values of the distance and of the trip count column *)
  num : Type;
  (** the values of the mean cost *)
  mean : Type;
  (** [*] on two values *)
  arith_mul : num -> num -> num;
  (** [a < b] *)
  arith_lt : num -> num -> bool;
  (** [a <= 0] *)
  arith_le_zero : num -> bool;
  (** [values.sum()] and [np.sum]; [None] where the order in which numpy
      adds the values is not modelled *)
  arith_sum : list num -> option num;
  (** [np.mean([lower, upper])] *)
  arith_mean_pair : num -> num -> mean;
  (** [band_distance / band_trips] *)
  arith_div : num -> num -> mean;
  (** the number a value stands for; none for an infinity and for NaN *)
  arith_value : num -> option Q;
  (** the mean cost is a number: not an infinity, not NaN *)
  arith_finite : mean -> bool
}.

(** Modelled from the spec: [func_utils.pairwise] is not part of the
    sources at hand; "for each consecutive edge pair (lower, upper)". *)
Fixpoint pairwise_of {X : Type} (l : list X) : list (X * X) :=
  match l with
  | [] => []
  | a :: t =>
      match t with
      | [] => []
      | b :: _ => (a, b) :: pairwise_of t
      end
  end.

Section AnyArithmetic.

Variable A : Arith.

(** [data[trip_dist_col] *= conv_factor], on the pairs of a distance and
    a trip count of the rows. *)
Definition convert_in (conv_factor : num A) (data : list (num A * num A))
  : list (num A * num A) :=
  map (fun dc => (arith_mul A (fst dc) conv_factor, snd dc)) data.

(** The body of the loop over the bands. *)
Definition band_values_in (data : list (num A * num A)) (band : num A * num A)
  : option (num A * mean A) :=
  let '(lower, upper) := band in
  let band_data :=
    List.filter
      (fun dc => arith_lt A lower (fst dc) && arith_lt A (fst dc) upper) data in
  match arith_sum A (map snd band_data),
        arith_sum A (map (fun dc => arith_mul A (snd dc) (fst dc)) band_data) with
  | Some band_trips, Some band_distance =>
      let band_mean_cost :=
        if arith_le_zero A band_distance then arith_mean_pair A lower upper
        else arith_div A band_distance band_trips in
      Some (band_trips, band_mean_cost)
  | _, _ => None
  end.

(** The trips and the mean cost of every band. *)
Definition build_bands_in
    (conv_factor : num A) (data : list (num A * num A)) (band_edges : list (num A))
  : list (option (num A * mean A)) :=
  map (band_values_in (convert_in conv_factor data)) (pairwise_of band_edges).

(** *** Arithmetic that is exact on the values of a band *)

(** The number a value stands for, 0 when it stands for none. *)
Definition value_of (x : num A) : Q := default 0 (arith_value A x).

Definition is_number (x : num A) : bool :=
  match arith_value A x with Some _ => true | None => false end.


(** On the rows and the band, every value is a number, the comparisons
    of the distances with the edges are those of the numbers, and the two
    sums of the band are the sums of the numbers: the sum of the counts,
    and the sum of the products of the counts and the distances, none of
    them rounded, overflowed or wrapped around. *)
Definition exact_band (data : list (num A * num A)) (band : num A * num A)
  : bool :=
  let '(lower, upper) := band in
  let band_data :=
    List.filter
      (fun dc => arith_lt A lower (fst dc) && arith_lt A (fst dc) upper) data in
  is_number lower && is_number upper &&
  forallb
    (fun dc =>
       is_number (fst dc) && is_number (snd dc) &&
       eqb (arith_lt A lower (fst dc)) (Qltb (value_of lower) (value_of (fst dc))) &&
       eqb (arith_lt A (fst dc) upper) (Qltb (value_of (fst dc)) (value_of upper)))
    data &&
  match arith_sum A (map snd band_data),
        arith_sum A (map (fun dc => arith_mul A (snd dc) (fst dc)) band_data) with
  | Some band_trips, Some band_distance =>
      is_number band_trips && is_number band_distance &&
      Qeq_bool (value_of band_trips)
        (Qsum (map (fun dc => value_of (snd dc)) band_data)) &&
      Qeq_bool (value_of band_distance)
        (Qsum (map (fun dc => value_of (snd dc) * value_of (fst dc)) band_data)) &&
      eqb (arith_le_zero A band_distance) (Qle_bool (value_of band_distance) 0)
  | _, _ => false
  end.


End AnyArithmetic.

(** Exact arithmetic on rationals. *)
Definition Qarith : Arith :=
  {| num := Q;
     mean := npfloat;
     arith_mul := Qmult;
     arith_lt := Qltb;
     arith_le_zero := fun a => Qle_bool a 0;
     arith_sum := fun l => Some (Qsum l);
     arith_mean_pair := fun lower upper => Finite (np_mean2 lower upper);
     arith_div := np_divide;
     arith_value := Some;
     arith_finite := is_finite |}.

(** The sum of a float64 array of at most two values: every order of
    adding them gives the same sum, up to the sign of a zero.  For a
    longer array the sum depends on the order in which numpy adds the
    values, which changes with the length of the array; it is not
    modelled, and nothing is stated of such a sum. *)
Definition f64_sum (l : list float) : option float :=
  match l with
  | [] => Some 0%float
  | [a] => Some a
  | [a; b] => Some (a + b)%float
  | _ => None
  end.

(** The rational a binary64 number is. *)
Definition f64_value (x : float) : option Q :=
  match Prim2SF x with
  | S754_zero _ => Some 0
  | S754_finite s m e =>
      let q := inject_Z (Zpos m) * 2 ^ e in
      Some (if s then - q else q)
  | _ => None
  end.

(** [np.isfinite] *)
Definition f64_finite (x : float) : bool :=
  negb (PrimFloat.is_nan x || PrimFloat.is_infinity x).

(** IEEE 754 binary64 arithmetic, rounding to nearest. *)
Definition F64 : Arith :=
  {| num := float;
     mean := float;
     arith_mul := PrimFloat.mul;
     arith_lt := PrimFloat.ltb;
     arith_le_zero := fun a => PrimFloat.leb a 0%float;
     arith_sum := f64_sum;
     arith_mean_pair := fun lower upper => ((lower + upper) / 2)%float;
     arith_div := PrimFloat.div;
     arith_value := f64_value;
     arith_finite := f64_finite |}.

(** The distance and the trip count of every row. *)
Definition numeric_columns (data : DataFrame) : list (Q * Q) :=
  map (fun r => (trip_dist r, trip_count r)) data.

(** ** The segment filter, as the specification words it *)

Section SegmentFilterSpec.

Context `{env : Collaborators}.

(** The column a segment parameter is tested on: the purpose column for
    the user class. *)
Definition tested_column (seg_name : string) : string :=
  if decide (seg_name = "uc") then purpose_col else seg_name.

(** The test of one segment parameter on a row: membership in the
    expansion of the trip origin, membership in the purposes of the
    user class, no test for a NaN ["soc"] or ["ns"], and otherwise "an
    exact-match equality filter on the corresponding column". *)
Definition spec_dimension_test (seg_name : string) (seg_val : cell) (r : row)
  : bool :=
  if decide (seg_name = "trip_origin") then
    let expansion :=
      if decide (seg_val = CStr "hb") then [CStr "hb_to"; CStr "hb_from"]
      else if decide (seg_val = CStr "nhb") then [CStr "nhb"]
      else [] in
    from_option (fun c => bool_decide (c ∈ expansion)) false
      (col r "trip_origin")
  else if decide (seg_name = "uc") then
    let purposes :=
      match user_class_purposes seg_val with
      | Ok purposes => purposes
      | Raise _ => []
      end in
    from_option (fun c => bool_decide (c ∈ purposes)) false (col r purpose_col)
  else if decide (seg_name = "soc" \/ seg_name = "ns") then
    if decide (seg_val = CNaN) then true
    else bool_decide (col r seg_name = Some seg_val)
  else bool_decide (col r seg_name = Some seg_val).

(** "All filters are conjunctive (AND)." *)
Definition spec_segment_test (params : segment_params) (r : row) : bool :=
  forallb (fun kv => spec_dimension_test (fst kv) (snd kv) r) params.

End SegmentFilterSpec.

(** The value of the column is one of the codes of the area. *)
Definition in_area (geo_area : GeoArea) (column : string) (r : row) : Prop :=
  exists c, col r column = Some c /\ In c (get_gors geo_area).

(** ** Names, paths and copies *)

(** [sub in s] on strings *)
Fixpoint str_in (sub s : string) : bool :=
  String.prefix sub s
  || match s with
     | EmptyString => false
     | String _ s' => str_in sub s'
     end.

(** [s.replace("", new)]: [new] before every character and at the end. *)
Fixpoint replace_empty (new s : string) : string :=
  match s with
  | EmptyString => new
  | String c s' => (new ++ String c (replace_empty new s'))%string
  end.

(** The scan of [s.replace(old, new)] for a non-empty [old], from left
    to right over the occurrences that do not overlap; [skip] counts the
    characters of a replaced occurrence that are still to be passed. *)
Fixpoint replace_go (old new : string) (skip : nat) (s : string) : string :=
  match s with
  | EmptyString => EmptyString
  | String c s' =>
      match skip with
      | S k => replace_go old new k s'
      | O =>
          if String.prefix old (String c s')
          then (new ++ replace_go old new (String.length old - 1) s')%string
          else String c (replace_go old new 0 s')
      end
  end.

(** [s.replace(old, new)] *)
Definition str_replace (old new s : string) : string :=
  match old with
  | EmptyString => replace_empty new s
  | String _ _ => replace_go old new 0 s
  end.

(** Returns the pair [(fname, name)]. *)
Definition _get_name_and_fname (band_or_seg_name : string) : string * string :=
  if str_in ".csv" band_or_seg_name then
    (band_or_seg_name, str_replace ".csv" "" band_or_seg_name)
  else
    ((band_or_seg_name ++ ".csv")%string, band_or_seg_name).

(** [tld_enums.SampleTimePeriods]: a selector and the time periods it
    keeps. *)
Record SampleTimePeriods : Type := mk_sample_period {
  sample_value : string;
  get_time_periods : list Z
}.

(** The path functions of [os.path] and [pathlib], and the [value] of
    the enumerations that are not part of the sources at hand. *)
Class OutputCollaborators `{env : Collaborators} : Type := {
  Path : Type;
  (** [os.path.join(a, *p)] *)
  os_path_join : list string -> string;
  (** [pathlib.Path(s)] *)
  pathlib_Path : string -> Path;
  (** [path / name] *)
  path_div : Path -> string -> Path;
  (** [trip_filter_type.value], [cost_units.value] *)
  TripFilter_value : TripFilter -> string;
  CostUnits_value : CostUnits -> string
}.

Section Outputs.

Context `{out : OutputCollaborators}.

(** [self.output_folder] *)
Variable output_folder : string.

Definition build_output_path
    (geo_area : GeoArea) (trip_filter_type : TripFilter) (bands_name : string)
    (segmentation : SegmentationLevel) (sample_period : SampleTimePeriods)
    (cost_units : CostUnits) : Path :=
  let bands_name := snd (_get_name_and_fname bands_name) in
  pathlib_Path
    (os_path_join
       [ output_folder; geo_value geo_area; TripFilter_value trip_filter_type;
         bands_name; segmentation_name segmentation;
         sample_value sample_period; CostUnits_value cost_units ]).

Definition generate_output_paths
    (geo_area : GeoArea) (trip_filter_type : TripFilter) (bands_name : string)
    (segmentation : SegmentationLevel) (sample_period : SampleTimePeriods)
    (cost_units : CostUnits) : Path * list string :=
  let base_path :=
    build_output_path geo_area trip_filter_type bands_name segmentation
      sample_period cost_units in
  let fnames :=
    map (fun params => (_generate_tld_name segmentation params ++ ".csv")%string)
        (segments segmentation) in
  (base_path, fnames).

(** [fname.replace(".csv", f"_tp{tp}.csv")] *)
Definition tp_out_name (fname : string) (tp : Z) : string :=
  str_replace ".csv" ("_tp" ++ pretty tp ++ ".csv")%string fname.

(** The list [copy_files] of the pairs of a source and a destination
    that [copy_across_tps] hands to [file_ops.copy_and_rename_files];
    the folder it creates and the run log it writes are left to the
    file system. *)
Definition copy_across_tps
    (geo_area : GeoArea) (trip_filter_type : TripFilter) (bands_name : string)
    (segmentation : SegmentationLevel) (sample_period : SampleTimePeriods)
    (cost_units : CostUnits) : list (Path * Path) :=
  let '(base_path, fnames) :=
    generate_output_paths geo_area trip_filter_type bands_name segmentation
      sample_period cost_units in
  let output_path := path_div base_path "tp_copied" in
  flat_map
    (fun fname =>
       map (fun tp =>
              (path_div base_path fname,
               path_div output_path (tp_out_name fname tp)))
           (get_time_periods sample_period))
    fnames.

End Outputs.

(** [input_dat[input_dat[self.tp_col].isin(keep_tps)]], with the index
    reset. *)
Definition _handle_sample_period
    (input_dat : DataFrame) (sample_period : SampleTimePeriods) : DataFrame :=
  let keep_tps := map CInt (get_time_periods sample_period) in
  List.filter
    (fun r => from_option (fun c => bool_decide (c ∈ keep_tps)) false (col r tp_col))
    input_dat.

(** ** A small survey

    Concrete collaborators and a concrete extract, on which the
    definitions above are run. *)

Inductive example_units : Type :=
  | Miles
  | Kilometres.

Definition example_factor (from to : example_units) : Q :=
  match from, to with
  | Miles, Kilometres => 1609344 # 1000000
  | Kilometres, Miles => 1000000 # 1609344
  | _, _ => 1
  end.

Definition example_purposes (seg_val : cell) : result (list cell) :=
  if decide (seg_val = CStr "commute") then Ok [CInt 1]
  else if decide (seg_val = CStr "business") then Ok [CInt 2; CInt 12]
  else Raise (ValueError "not a valid UserClass").

Definition example_od_type (t : TripFilter) : bool :=
  match t with
  | TRIP_other _ => false
  | _ => true
  end.

Definition example_to_df
    (tld : CostDistribution example_units) (params : segment_params)
  : list (segment_params * (Q * npfloat)) :=
  map (fun band => (params, band)) (combine (band_trips tld) (band_mean_cost tld)).

Definition example_env : Collaborators :=
  {| CostUnits := example_units;
     MILES := Miles;
     get_conversion_factor := example_factor;
     is_od_type := example_od_type;
     user_class_purposes := example_purposes;
     ExportRow := (segment_params * (Q * npfloat))%type;
     to_df := example_to_df |}.

Definition survey_row
    (p : Z) (soc : cell) (direction : string) (orig dest : Z) (dist count : Q)
  : row :=
  {| attrs := {[ "p" := CInt p; "soc" := soc; "trip_origin" := CStr direction;
                 "TripOrigGOR_B02ID" := CInt orig;
                 "TripDestGOR_B02ID" := CInt dest ]};
     trip_dist := dist;
     trip_count := count |}.

(** Three records, of distances 1, 1 and 3 and counts 10, 10 and 5. *)
Definition example_data : DataFrame :=
  [ survey_row 1 (CInt 2) "hb_from" 1 1 1 10;
    survey_row 1 CNaN "hb_to" 1 2 1 10;
    survey_row 2 (CInt 3) "nhb" 2 2 3 5 ].

(** The rows of the segment [p = 1], as the segment filter returns them. *)
Definition segment_p1 : DataFrame :=
  [ survey_row 1 (CInt 2) "hb_from" 1 1 1 10;
    survey_row 1 CNaN "hb_to" 1 2 1 10 ].

(** The row of the segment [p = 2]. *)
Definition segment_p2 : DataFrame :=
  [ survey_row 2 (CInt 3) "nhb" 2 2 3 5 ].

(** The bands from 0 to 2 and from 2 to 5. *)
Definition example_bands : list (Q * Q) := [(0, 2); (2, 5)].

Definition example_segmentation : SegmentationLevel :=
  {| segmentation_name := "p";
     segments := [[("p", CInt 1)]; [("p", CInt 2)]];
     generate_file_name := fun params trip_origin file_desc =>
       match params_get "p" params with
       | Some (CInt 1) => (file_desc ++ "_p1")%string
       | Some (CInt 2) => (file_desc ++ "_p2")%string
       | _ => file_desc
       end |}.

Definition example_area : GeoArea :=
  {| geo_value := "north"; get_gors := [CInt 1] |}.

Definition example_units_value (u : example_units) : string :=
  match u with
  | Miles => "miles"
  | Kilometres => "km"
  end.

Definition example_filter_value (t : TripFilter) : string :=
  match t with
  | TRIP_OD => "trip_OD"
  | TRIP_O => "trip_O"
  | TRIP_D => "trip_D"
  | TRIP_other name => name
  end.

(** Paths as strings with ["/"] between the parts. *)
Definition example_out : @OutputCollaborators example_env :=
  @Build_OutputCollaborators example_env
    string
    (String.concat "/")
    (fun s => s)
    (fun base name => (base ++ "/" ++ name)%string)
    example_filter_value
    example_units_value.

(** The four time periods of a weekday. *)
Definition example_period : SampleTimePeriods :=
  {| sample_value := "weekday"; get_time_periods := [1; 2; 3; 4]%Z |}.

(** Two segments that are given the same name. *)
Definition same_name_segmentation : SegmentationLevel :=
  {| segmentation_name := "p";
     segments := [[("p", CInt 1)]; [("p", CInt 2)]];
     generate_file_name := fun params trip_origin file_desc => file_desc |}.

(** A bands table whose rows are not in the order of the column
    ["lower"]. *)
Definition unordered_bands : list (Q * Q) := [(2, 5); (0, 2)].


(** A segmentation whose second segment has a trip origin that
    [to_dict] does not hold. *)
Definition unknown_origin_segmentation : SegmentationLevel :=
  {| segmentation_name := "p_trip_origin";
     segments := [[("p", CInt 1)]; [("trip_origin", CStr "home")]];
     generate_file_name := fun params trip_origin file_desc => file_desc |}.

(** *** A small survey in float64 *)

Set Warnings "-inexact-float".

(** The distances and the trip counts of the small survey. *)
Definition example_columns : list (float * float) :=
  [(1, 10); (1, 10); (3, 5)]%float.





(** ** Numbers: lemmas *)

Lemma Qltb_lt (a b : Q) : Qltb a b = true <-> a < b.
Proof.
  unfold Qltb. rewrite negb_true_iff.
  split; intros H.
  - apply Qnot_le_lt. intros Hle. apply Qle_bool_iff in Hle. congruence.
  - destruct (Qle_bool b a) eqn:E; [|reflexivity].
    apply Qle_bool_iff in E. exfalso. apply (Qlt_not_le _ _ H). exact E.
Qed.

Lemma Qltb_ge (a b : Q) : Qltb a b = false <-> b <= a.
Proof.
  unfold Qltb. rewrite negb_false_iff. apply Qle_bool_iff.
Qed.

Lemma Qle_bool_gt (a b : Q) : Qle_bool a b = false <-> b < a.
Proof.
  rewrite <- Qltb_lt. unfold Qltb. now rewrite negb_true_iff.
Qed.


Section Properties.

Context `{env : Collaborators}.

(** *** The divisor of the mean cost *)




(** *** A distance and the bands *)

Lemma strictly_increasing_cons (a b : Q) (t : list Q) :
  strictly_increasing (a :: b :: t) = true <->
  a < b /\ strictly_increasing (b :: t) = true.
Proof.
  change (strictly_increasing (a :: b :: t))
    with (Qltb a b && strictly_increasing (b :: t)).
  rewrite andb_true_iff, Qltb_lt. reflexivity.
Qed.

Lemma strictly_increasing_head (a : Q) (t : list Q) :
  strictly_increasing (a :: t) = true -> forall e, In e t -> a < e.
Proof.
  revert a. induction t as [|b t IH]; intros a Hs e He; [destruct He|].
  apply strictly_increasing_cons in Hs as [Hab Hs].
  destruct He as [<-|He]; [exact Hab|].
  pose proof (IH b Hs e He). lra.
Qed.

Lemma selecting_bands_cons (a b : Q) (t : list Q) (r : row) :
  selecting_bands (a :: b :: t) r =
  if band_mask a b r then (a, b) :: selecting_bands (b :: t) r
  else selecting_bands (b :: t) r.
Proof. reflexivity. Qed.

Lemma band_mask_iff (lower upper : Q) (r : row) :
  band_mask lower upper r = true <-> lower < trip_dist r /\ trip_dist r < upper.
Proof.
  unfold band_mask. rewrite andb_true_iff, !Qltb_lt. reflexivity.
Qed.

Lemma band_mask_false (lower upper : Q) (r : row) :
  trip_dist r <= lower \/ upper <= trip_dist r ->
  band_mask lower upper r = false.
Proof.
  intros H. destruct (band_mask lower upper r) eqn:E; [|reflexivity].
  apply band_mask_iff in E. lra.
Qed.

Lemma no_band_below (a : Q) (t : list Q) (r : row) :
  strictly_increasing (a :: t) = true ->
  trip_dist r <= a ->
  selecting_bands (a :: t) r = [].
Proof.
  revert a. induction t as [|b t IH]; intros a Hs Hd; [reflexivity|].
  apply strictly_increasing_cons in Hs as [Hab Hs].
  rewrite selecting_bands_cons, band_mask_false by (left; exact Hd).
  apply IH; [exact Hs | lra].
Qed.

Lemma selecting_at_most_one (band_edges : list Q) (r : row) :
  strictly_increasing band_edges = true ->
  (length (selecting_bands band_edges r) <= 1)%nat.
Proof.
  induction band_edges as [|a t IH]; intros Hs; [simpl; lia|].
  destruct t as [|b t]; [simpl; lia|].
  apply strictly_increasing_cons in Hs as [Hab Hs].
  rewrite selecting_bands_cons.
  destruct (band_mask a b r) eqn:E.
  - apply band_mask_iff in E.
    rewrite (no_band_below b t r Hs) by lra. simpl; lia.
  - apply IH, Hs.
Qed.

Lemma on_edge_iff (band_edges : list Q) (d : Q) :
  on_edge band_edges d = true <-> exists e, In e band_edges /\ d == e.
Proof.
  unfold on_edge. rewrite existsb_exists.
  split; intros (e & He & Hd); exists e; split; try exact He;
    now apply Qeq_bool_iff.
Qed.

Lemma on_edge_no_band (band_edges : list Q) (r : row) :
  strictly_increasing band_edges = true ->
  on_edge band_edges (trip_dist r) = true ->
  selecting_bands band_edges r = [].
Proof.
  induction band_edges as [|a t IH]; intros Hs He; [reflexivity|].
  destruct t as [|b t]; [reflexivity|].
  apply on_edge_iff in He as (e & Hin & Hd).
  destruct Hin as [<-|Hin].
  - apply no_band_below; [exact Hs | lra].
  - apply strictly_increasing_cons in Hs as [Hab Hs].
    rewrite selecting_bands_cons, band_mask_false.
    + apply IH; [exact Hs|]. apply on_edge_iff. now exists e.
    + right. destruct Hin as [<-|Hin]; [lra|].
      pose proof (strictly_increasing_head b t Hs e Hin). lra.
Qed.





(** *** The trips of all bands *)






Lemma convert_distances_count (conv_factor : Q) (data : DataFrame) :
  map trip_count (convert_distances conv_factor data) = map trip_count data.
Proof.
  unfold convert_distances. induction data as [|r data IH]; simpl; congruence.
Qed.

(** *** The bands of the built distribution *)

Lemma lookup_map {A B : Type} (f : A -> B) (l : list A) (i : nat) :
  map f l !! i = option_map f (l !! i).
Proof.
  revert i. induction l as [|x l IH]; intros [|i]; simpl; auto.
Qed.

Lemma build_band_trips_lookup
    (data : DataFrame) (band_edges : list Q) (output_cost_units : CostUnits)
    (i : nat) :
  band_trips (_build_cost_distribution data band_edges output_cost_units) !! i =
  option_map
    (fun b => fst (band_values
       (convert_distances
          (get_conversion_factor input_cost_units output_cost_units) data) b))
    (pairwise band_edges !! i).
Proof.
  unfold _build_cost_distribution. cbn [band_trips].
  rewrite !lookup_map. now destruct (pairwise band_edges !! i).
Qed.

Lemma build_band_mean_cost_lookup
    (data : DataFrame) (band_edges : list Q) (output_cost_units : CostUnits)
    (i : nat) :
  band_mean_cost (_build_cost_distribution data band_edges output_cost_units) !! i =
  option_map
    (fun b => snd (band_values
       (convert_distances
          (get_conversion_factor input_cost_units output_cost_units) data) b))
    (pairwise band_edges !! i).
Proof.
  unfold _build_cost_distribution. cbn [band_mean_cost].
  rewrite !lookup_map. now destruct (pairwise band_edges !! i).
Qed.

Lemma band_values_mean_low (data : DataFrame) (lower upper : Q) :
  band_distance_of (List.filter (band_mask lower upper) data) <= 0 ->
  snd (band_values data (lower, upper)) = Finite (np_mean2 lower upper).
Proof.
  intros H. apply Qle_bool_iff in H. cbn. now rewrite H.
Qed.

Lemma band_values_mean_high (data : DataFrame) (lower upper : Q) :
  0 < band_distance_of (List.filter (band_mask lower upper) data) ->
  snd (band_values data (lower, upper)) =
  np_divide (band_distance_of (List.filter (band_mask lower upper) data))
            (band_trips_of (List.filter (band_mask lower upper) data)).
Proof.
  intros H. apply Qle_bool_gt in H. cbn. now rewrite H.
Qed.

Lemma np_divide_finite (a b : Q) : ~ b == 0 -> np_divide a b = Finite (a / b).
Proof.
  intros H. unfold np_divide.
  destruct (Qeq_bool b 0) eqn:E; [|reflexivity].
  apply Qeq_bool_iff in E. contradiction.
Qed.

Lemma filter_nothing {A : Type} (f : A -> bool) (l : list A) :
  (forall x, In x l -> f x = false) -> List.filter f l = [].
Proof.
  induction l as [|x l IH]; intros H; [reflexivity|].
  simpl. rewrite (H x) by now left. apply IH. intros y Hy. apply H. now right.
Qed.

(** C3: with strictly increasing edges, the mask [lower < distance <
    upper] of the cost distribution builder selects every record of the
    unit-converted data in at most one consecutive edge pair, and a
    record whose converted distance equals an edge in none of them. *)
Theorem distance_in_at_most_one_band
    (data : DataFrame) (band_edges : list Q) (output_cost_units : CostUnits) :
  strictly_increasing band_edges = true ->
  Forall
    (fun r =>
       (length (selecting_bands band_edges r) <= 1)%nat /\
       (on_edge band_edges (trip_dist r) = true ->
        selecting_bands band_edges r = [] /\
        forall lower upper, In (lower, upper) (pairwise band_edges) ->
                            band_mask lower upper r = false))
    (convert_distances
       (get_conversion_factor input_cost_units output_cost_units) data).
Proof.
  intros Hs. apply List.Forall_forall. intros r _. split.
  - now apply selecting_at_most_one.
  - intros He. pose proof (on_edge_no_band band_edges r Hs He) as Hnone.
    split; [exact Hnone|]. intros lower upper Hin.
    destruct (band_mask lower upper r) eqn:E; [|reflexivity].
    assert (Hsel : In (lower, upper) (selecting_bands band_edges r)).
    { apply filter_In. split; [exact Hin | exact E]. }
    rewrite Hnone in Hsel. destruct Hsel.
Qed.

(** *** Any arithmetic, where it is exact *)








(** On exact rationals the loop over the bands for any arithmetic is the
    loop of [_build_cost_distribution], and its arithmetic is exact on
    every band. *)
Lemma filter_numeric_columns (f : Q * Q -> bool) (data : DataFrame) :
  List.filter f (numeric_columns data)
  = numeric_columns
      (List.filter (fun r => f (trip_dist r, trip_count r)) data).
Proof.
  unfold numeric_columns.
  induction data as [|r data IH]; [reflexivity|].
  cbn [map List.filter]. destruct (f _); cbn [map]; now rewrite IH.
Qed.

Lemma pairwise_of_rationals (band_edges : list Q) :
  pairwise_of band_edges = pairwise band_edges.
Proof.
  induction band_edges as [|a t IH]; [reflexivity|].
  destruct t as [|b t]; [reflexivity|].
  change (pairwise_of (a :: b :: t)) with ((a, b) :: pairwise_of (b :: t)).
  rewrite IH. reflexivity.
Qed.

Lemma build_bands_rationals
    (data : DataFrame) (band_edges : list Q) (output_cost_units : CostUnits) :
  let tld := _build_cost_distribution data band_edges output_cost_units in
  build_bands_in Qarith
    (get_conversion_factor input_cost_units output_cost_units)
    (numeric_columns data) band_edges
  = map Some (combine (band_trips tld) (band_mean_cost tld)).
Proof.
  cbn zeta. unfold _build_cost_distribution, build_bands_in.
  cbn [band_trips band_mean_cost].
  set (cf := get_conversion_factor input_cost_units output_cost_units).
  rewrite pairwise_of_rationals.
  assert (Hconv : convert_in Qarith cf (numeric_columns data)
                  = numeric_columns (convert_distances cf data)).
  { unfold convert_in, numeric_columns, convert_distances.
    rewrite !map_map. reflexivity. }
  rewrite Hconv.
  induction (pairwise band_edges) as [|[lower upper] bands IH]; [reflexivity|].
  cbn [map combine]. rewrite IH. f_equal.
  unfold band_values_in. cbn [arith_sum arith_lt arith_mul arith_le_zero
    arith_mean_pair arith_div Qarith].
  rewrite (filter_numeric_columns
             (fun dc => Qltb lower (fst dc) && Qltb (fst dc) upper)).
  unfold numeric_columns. rewrite !map_map. reflexivity.
Qed.

Lemma exact_band_rationals (data : list (Q * Q)) (band : Q * Q) :
  exact_band Qarith data band = true.
Proof.
  destruct band as [lower upper]. unfold exact_band.
  cbn [arith_sum arith_lt arith_mul arith_le_zero Qarith].
  rewrite !andb_true_iff. repeat split; try reflexivity.
  - apply forallb_forall. intros dc _.
    rewrite !andb_true_iff. repeat split; try reflexivity; apply eqb_reflx.
  - apply Qeq_bool_iff. reflexivity.
  - apply Qeq_bool_iff. reflexivity.
  - apply eqb_reflx.
Qed.


(** C5: in any arithmetic, for the [i]-th band [(lower, upper)] the
    builder returns the sum of the counts of the selected rows as the
    band's trips; when the sum of the products of count and converted
    distance of the selected rows is at most 0 the band's mean cost is
    the midpoint of the band, and otherwise it is that sum divided by
    the trips.  On exact rationals, for [_build_cost_distribution]: the
    same with the sums and the midpoint [(lower + upper) / 2] written
    out, and a band that selects no row has 0 trips and the midpoint as
    mean cost.  The single band from 0 to 1 with no record below 1 has 0
    trips and the mean cost 1/2, on exact rationals and in float64. *)
Theorem band_mean_cost_fallback
    (A : Arith) (conv_factor : num A) (columns : list (num A * num A))
    (edges_in : list (num A)) (i : nat) (lower upper : num A)
    (data : DataFrame) (band_edges : list Q) (output_cost_units : CostUnits)
    (j : nat) (qlower qupper : Q)
    (float_factor : float) (float_columns : list (float * float)) :
  (pairwise_of edges_in !! i = Some (lower, upper) ->
   let converted :=
     map (fun dc => (arith_mul A (fst dc) conv_factor, snd dc)) columns in
   let selected :=
     List.filter
       (fun dc => arith_lt A lower (fst dc) && arith_lt A (fst dc) upper)
       converted in
   forall band_trips band_distance,
     arith_sum A (map snd selected) = Some band_trips ->
     arith_sum A (map (fun dc => arith_mul A (snd dc) (fst dc)) selected)
       = Some band_distance ->
     (arith_le_zero A band_distance = true ->
      build_bands_in A conv_factor columns edges_in !! i
        = Some (Some (band_trips, arith_mean_pair A lower upper))) /\
     (arith_le_zero A band_distance = false ->
      build_bands_in A conv_factor columns edges_in !! i
        = Some (Some (band_trips, arith_div A band_distance band_trips)))) /\
  (pairwise band_edges !! j = Some (qlower, qupper) ->
   let converted :=
     map (fun r =>
            set_dist r
              (trip_dist r
               * get_conversion_factor input_cost_units output_cost_units))
       data in
   let selected :=
     List.filter
       (fun r => Qltb qlower (trip_dist r) && Qltb (trip_dist r) qupper)
       converted in
   let trips := Qsum (map trip_count selected) in
   let weighted := Qsum (map (fun r => trip_count r * trip_dist r) selected) in
   let tld := _build_cost_distribution data band_edges output_cost_units in
   band_trips tld !! j = Some trips /\
   (selected = [] ->
    band_trips tld !! j = Some 0 /\
    band_mean_cost tld !! j = Some (Finite ((qlower + qupper) / 2))) /\
   (weighted <= 0 ->
    band_mean_cost tld !! j = Some (Finite ((qlower + qupper) / 2))) /\
   (0 < weighted -> ~ trips == 0 ->
    band_mean_cost tld !! j = Some (Finite (weighted / trips))) /\
   (0 < weighted -> trips == 0 -> band_mean_cost tld !! j = Some PosInf)) /\
  ((forall r, In r data ->
      ~ trip_dist r * get_conversion_factor input_cost_units output_cost_units
        < 1) ->
   band_trips (_build_cost_distribution data [0; 1] output_cost_units) = [0] /\
   band_mean_cost (_build_cost_distribution data [0; 1] output_cost_units)
     = [Finite (1 # 2)]) /\
  ((forall dc, In dc float_columns ->
      PrimFloat.ltb (fst dc * float_factor) 1 = false) ->
   build_bands_in F64 float_factor float_columns [0; 1]%float
     = [Some (0, 0.5)%float]).
Proof.
  split; [|split; [|split]].
  - intros Hi converted selected band_trips band_distance Ht Hw.
    assert (E : build_bands_in A conv_factor columns edges_in !! i
                = Some (band_values_in A converted (lower, upper))).
    { unfold build_bands_in. rewrite lookup_map, Hi. reflexivity. }
    rewrite E. unfold band_values_in. fold selected. rewrite Ht, Hw.
    split; intros Hle; rewrite Hle; reflexivity.
  - intros Hj converted selected trips weighted tld.
    assert (Ht : band_trips tld !! j = Some trips).
    { subst tld. rewrite build_band_trips_lookup, Hj. reflexivity. }
    assert (Hm : band_mean_cost tld !! j =
                 Some (snd (band_values converted (qlower, qupper)))).
    { subst tld. rewrite build_band_mean_cost_lookup, Hj. reflexivity. }
    assert (Hlow : weighted <= 0 ->
                   band_mean_cost tld !! j
                   = Some (Finite ((qlower + qupper) / 2))).
    { intros H. rewrite Hm. f_equal. now apply band_values_mean_low. }
    split; [exact Ht|]. split; [|split; [exact Hlow|split]].
    + intros Hnil. split.
      * rewrite Ht. subst trips. rewrite Hnil. reflexivity.
      * apply Hlow. subst weighted. rewrite Hnil. cbn. lra.
    + intros Hpos Hnz. rewrite Hm. f_equal.
      rewrite band_values_mean_high by exact Hpos.
      now apply np_divide_finite.
    + intros Hpos Hz. rewrite Hm. f_equal.
      rewrite band_values_mean_high by exact Hpos.
      assert (E : np_divide weighted trips = PosInf).
      { unfold np_divide. apply Qeq_bool_iff in Hz. rewrite Hz.
        apply Qltb_lt in Hpos. now rewrite Hpos. }
      exact E.
  - intros Hnone.
    assert (Hsel : List.filter (band_mask 0 1)
                     (convert_distances
                        (get_conversion_factor input_cost_units output_cost_units)
                        data) = []).
    { apply filter_nothing. intros r Hr. apply band_mask_false. right.
      unfold convert_distances in Hr.
      apply in_map_iff in Hr as (r0 & <- & Hr0). cbn [trip_dist set_dist].
      destruct (Qlt_le_dec
                  (trip_dist r0
                   * get_conversion_factor input_cost_units output_cost_units) 1)
        as [Hlt|Hge]; [|exact Hge].
      now destruct (Hnone r0 Hr0). }
    unfold _build_cost_distribution.
    cbn [band_trips band_mean_cost pairwise map band_values fst snd].
    rewrite Hsel. split; reflexivity.
  - intros Hnone.
    unfold build_bands_in.
    cbn [pairwise_of map band_values_in F64 arith_lt arith_sum arith_mul
         arith_le_zero arith_mean_pair arith_div].
    rewrite filter_nothing.
    + vm_compute. reflexivity.
    + intros dc Hdc. unfold convert_in in Hdc.
      apply in_map_iff in Hdc as (dc0 & <- & Hdc0).
      change (PrimFloat.ltb 0 (@fst float float dc0 * float_factor)
              && PrimFloat.ltb (@fst float float dc0 * float_factor) 1 = false).
      rewrite (Hnone dc0 Hdc0). apply andb_false_r.
Qed.


(** *** The segment filter *)

Lemma build_df_filter_skip_nan
    (pre post : segment_params) (d : string) (m : gmap string filter_val) :
  d = "soc" \/ d = "ns" ->
  build_df_filter (pre ++ (d, CNaN) :: post) m = build_df_filter (pre ++ post) m.
Proof.
  intros Hd. revert m. induction pre as [|[k v] pre IH]; intros m.
  - cbn [app build_df_filter].
    destruct Hd as [-> | ->]; repeat case_decide; try congruence;
      try reflexivity; exfalso; tauto.
  - cbn [app build_df_filter]. repeat case_decide.
    + destruct (to_dict_item v); cbn [rbind]; [apply IH | reflexivity].
    + destruct (user_class_purposes v); cbn [rbind]; [apply IH | reflexivity].
    + destruct (np_isnan v) as [[|]|]; cbn [rbind]; auto.
    + apply IH.
Qed.

Lemma build_df_filter_insert
    (items : segment_params) (d : string) (f : filter_val)
    (m : gmap string filter_val) :
  ~ In d (map fst items) -> d <> purpose_col ->
  build_df_filter items (<[d := f]> m) =
  rmap (insert d f) (build_df_filter items m).
Proof.
  intros Hd Hp. revert m.
  induction items as [|[k v] items IH]; intros m; [reflexivity|].
  assert (Hk : d <> k) by (intros ->; apply Hd; now left).
  assert (Hd' : ~ In d (map fst items)) by (intros H; apply Hd; now right).
  specialize (IH Hd').
  cbn [build_df_filter]. repeat case_decide.
  - destruct (to_dict_item v); cbn [rbind]; [|reflexivity].
    rewrite (insert_insert_ne m k d) by congruence. apply IH.
  - destruct (user_class_purposes v); cbn [rbind]; [|reflexivity].
    rewrite (insert_insert_ne m purpose_col d) by congruence. apply IH.
  - destruct (np_isnan v) as [[|]|]; cbn [rbind]; [apply IH| |reflexivity].
    rewrite (insert_insert_ne m k d) by congruence. apply IH.
  - rewrite (insert_insert_ne m k d) by congruence. apply IH.
Qed.

Lemma build_df_filter_exact
    (pre post : segment_params) (d : string) (z : Z)
    (m : gmap string filter_val) :
  d = "soc" \/ d = "ns" ->
  ~ In d (map fst post) ->
  build_df_filter (pre ++ (d, CInt z) :: post) m =
  rmap (insert d (FScalar (CInt z))) (build_df_filter (pre ++ post) m).
Proof.
  intros Hd Hpost.
  assert (Hp : d <> purpose_col) by (destruct Hd as [-> | ->]; discriminate).
  revert m. induction pre as [|[k v] pre IH]; intros m.
  - cbn [app build_df_filter].
    destruct Hd as [-> | ->]; repeat case_decide; try congruence;
      try (exfalso; tauto); cbn [np_isnan rbind];
      now apply build_df_filter_insert.
  - cbn [app build_df_filter]. repeat case_decide.
    + destruct (to_dict_item v); cbn [rbind]; [apply IH | reflexivity].
    + destruct (user_class_purposes v); cbn [rbind]; [apply IH | reflexivity].
    + destruct (np_isnan v) as [[|]|]; cbn [rbind]; auto.
    + apply IH.
Qed.

Lemma build_df_filter_lookup
    (items : segment_params) (d : string) (m m' : gmap string filter_val) :
  ~ In d (map fst items) -> d <> purpose_col ->
  build_df_filter items m = Ok m' -> m' !! d = m !! d.
Proof.
  intros Hd Hp. revert m.
  induction items as [|[k v] items IH]; intros m H.
  - cbn in H. now inversion H.
  - assert (Hk : k <> d) by (intros ->; apply Hd; now left).
    assert (Hd' : ~ In d (map fst items)) by (intros H'; apply Hd; now right).
    specialize (IH Hd').
    cbn [build_df_filter] in H. repeat case_decide.
    + destruct (to_dict_item v); cbn [rbind] in H; [|discriminate].
      rewrite (IH _ H). now apply lookup_insert_ne.
    + destruct (user_class_purposes v); cbn [rbind] in H; [|discriminate].
      rewrite (IH _ H). apply lookup_insert_ne. congruence.
    + destruct (np_isnan v) as [[|]|]; cbn [rbind] in H; [auto| |discriminate].
      rewrite (IH _ H). now apply lookup_insert_ne.
    + rewrite (IH _ H). now apply lookup_insert_ne.
Qed.

Lemma row_passes_insert
    (m : gmap string filter_val) (d : string) (f : filter_val) (r : row) :
  m !! d = None ->
  row_passes (<[d := f]> m) r = column_passes r d f && row_passes m r.
Proof.
  intros Hm. unfold row_passes.
  apply eq_true_iff_eq.
  rewrite andb_true_iff, !bool_decide_eq_true.
  now rewrite map_Forall_insert.
Qed.

Lemma column_passes_scalar (r : row) (d : string) (v : cell) :
  column_passes r d (FScalar v) = bool_decide (col r d = Some v).
Proof.
  unfold column_passes. destruct (col r d) as [c|]; cbn.
  - apply eq_true_iff_eq. rewrite !bool_decide_eq_true.
    split; congruence.
  - symmetry. now apply bool_decide_eq_false.
Qed.

Lemma filter_andb {A : Type} (f g : A -> bool) (l : list A) :
  List.filter (fun x => f x && g x) l = List.filter f (List.filter g l).
Proof.
  induction l as [|x l IH]; [reflexivity|].
  cbn [List.filter]. destruct (g x), (f x) eqn:E; cbn [List.filter andb];
    rewrite ?E, IH; reflexivity.
Qed.

Lemma to_dict_item_ok (v : cell) (l : list cell) :
  to_dict_item v = Ok l ->
  (v = CStr "hb" /\ l = [CStr "hb_to"; CStr "hb_from"]) \/
  (v = CStr "nhb" /\ l = [CStr "nhb"]).
Proof.
  destruct (decide (v = CStr "hb")) as [->|H1].
  { intros H. vm_compute in H. inversion H. now left. }
  destruct (decide (v = CStr "nhb")) as [->|H2].
  { intros H. vm_compute in H. inversion H. now right. }
  destruct v as [z|s|]; cbn [to_dict_item]; try discriminate.
  unfold to_dict.
  rewrite lookup_insert_ne by congruence.
  rewrite lookup_singleton_ne by congruence. discriminate.
Qed.

Lemma spec_segment_test_cons
    (k : string) (v : cell) (params : segment_params) (r : row) :
  spec_segment_test ((k, v) :: params) r
  = spec_dimension_test k v r && spec_segment_test params r.
Proof. reflexivity. Qed.

Lemma spec_segment_test_app (pre post : segment_params) (r : row) :
  spec_segment_test (pre ++ post) r
  = spec_segment_test pre r && spec_segment_test post r.
Proof. unfold spec_segment_test. apply forallb_app. Qed.

(** The filter dictionary the loop builds tests a row as the segment
    parameters do, one by one, when no two of them are tested on the
    same column. *)
Lemma build_df_filter_spec
    (params : segment_params) (m m' : gmap string filter_val) (r : row) :
  List.NoDup (map (fun kv => tested_column (fst kv)) params) ->
  (forall kv, In kv params -> m !! tested_column (fst kv) = None) ->
  build_df_filter params m = Ok m' ->
  row_passes m' r = row_passes m r && spec_segment_test params r.
Proof.
  revert m. induction params as [|[k v] params IH]; intros m Hnd Hfresh H.
  - cbn in H. inversion H; subst. cbn. now rewrite andb_true_r.
  - cbn [map fst] in Hnd. apply List.NoDup_cons_iff in Hnd as [Hk Hnd].
    pose proof (Hfresh (k, v) (or_introl eq_refl)) as Hmk. cbn [fst] in Hmk.
    assert (Hstep : forall f,
               build_df_filter params (<[tested_column k := f]> m) = Ok m' ->
               row_passes m' r
               = row_passes m r
                 && (column_passes r (tested_column k) f
                     && spec_segment_test params r)).
    { intros f Hb. rewrite (IH (<[tested_column k := f]> m) Hnd); [| |exact Hb].
      - rewrite row_passes_insert by exact Hmk.
        destruct (column_passes r (tested_column k) f), (row_passes m r);
          reflexivity.
      - intros kv Hin. rewrite lookup_insert_ne.
        + apply Hfresh. now right.
        + intros E. apply Hk. apply in_map_iff. now exists kv. }
    assert (Hskip : build_df_filter params m = Ok m' ->
                    row_passes m' r
                    = row_passes m r && spec_segment_test params r).
    { intros Hb. apply IH; [exact Hnd| |exact Hb].
      intros kv Hin. apply Hfresh. now right. }
    rewrite spec_segment_test_cons. unfold spec_dimension_test.
    cbn [build_df_filter] in H. revert H Hstep. unfold tested_column at 1 2.
    destruct (decide (k = "trip_origin")) as [->|Hto].
    { destruct (decide ("trip_origin" = "uc")) as [E|_]; [discriminate E|].
      intros H Hstep.
      destruct (to_dict_item v) as [l|e] eqn:El; cbn [rbind] in H;
        [|discriminate].
      rewrite (Hstep _ H). f_equal. f_equal.
      destruct (to_dict_item_ok v l El) as [[-> ->]|[-> ->]]; reflexivity. }
    destruct (decide (k = "uc")) as [->|Huc].
    { intros H Hstep.
      destruct (user_class_purposes v) as [purposes|e]; cbn [rbind] in H;
        [|discriminate].
      rewrite (Hstep _ H). reflexivity. }
    destruct (decide (k = "soc" \/ k = "ns")) as [Hsn|Hsn].
    { intros H Hstep.
      destruct v as [z|s|]; cbn [np_isnan rbind] in H; [|discriminate|].
      - rewrite (Hstep _ H).
        destruct (decide (CInt z = CNaN)) as [E|_]; [discriminate E|].
        now rewrite column_passes_scalar.
      - destruct (decide (CNaN = CNaN)) as [_|E]; [|congruence].
        rewrite (Hskip H). reflexivity. }
    intros H Hstep. rewrite (Hstep _ H). now rewrite column_passes_scalar.
Qed.

Lemma row_passes_empty (r : row) : row_passes ∅ r = true.
Proof.
  unfold row_passes. apply bool_decide_eq_true. apply map_Forall_empty.
Qed.

(** The segment filter returns the rows that pass the test of every
    segment parameter, when it raises nothing and no two parameters are
    tested on the same column. *)
Lemma filter_nts_data_spec (nts_data : DataFrame) (params : segment_params) :
  List.NoDup (map (fun kv => tested_column (fst kv)) params) ->
  is_ok (_filter_nts_data nts_data params) = true ->
  _filter_nts_data nts_data params
  = Ok (List.filter (spec_segment_test params) nts_data).
Proof.
  intros Hnd Hok. unfold _filter_nts_data in *.
  destruct (build_df_filter params ∅) as [m|e] eqn:E; [|discriminate].
  cbn [rbind]. f_equal. unfold filter_df. apply filter_ext. intros r.
  rewrite (build_df_filter_spec params ∅ m r Hnd); [|intros; apply lookup_empty|exact E].
  now rewrite row_passes_empty.
Qed.

(** C8: a segment parameter ["soc"] or ["ns"] whose value is NaN puts no
    filter on its column: the result is that of the remaining
    parameters, and, when these are tested on different columns and
    raise nothing, the rows returned are the rows of the data that pass
    the test of every remaining parameter, whatever they hold in the
    column of the NaN.  With a numeric value that is not NaN the rows
    returned are those among them whose column holds exactly that
    value. *)
Theorem segment_filter_soc_ns
    (nts_data : DataFrame) (pre post : segment_params) (d : string) :
  d = "soc" \/ d = "ns" ->
  _filter_nts_data nts_data (pre ++ (d, CNaN) :: post)
    = _filter_nts_data nts_data (pre ++ post) /\
  (List.NoDup (map (fun kv => tested_column (fst kv)) (pre ++ post)) ->
   is_ok (_filter_nts_data nts_data (pre ++ post)) = true ->
   _filter_nts_data nts_data (pre ++ (d, CNaN) :: post)
     = Ok (List.filter (spec_segment_test (pre ++ post)) nts_data) /\
   forall z : Z,
     ~ In d (map fst (pre ++ post)) ->
     _filter_nts_data nts_data (pre ++ (d, CInt z) :: post)
       = Ok (List.filter
               (fun r => spec_segment_test (pre ++ post) r
                         && bool_decide (col r d = Some (CInt z)))
               nts_data)) /\
  (forall z : Z,
     ~ In d (map fst (pre ++ post)) ->
     _filter_nts_data nts_data (pre ++ (d, CInt z) :: post)
       = rmap (List.filter (fun r => bool_decide (col r d = Some (CInt z))))
              (_filter_nts_data nts_data (pre ++ post))).
Proof.
  intros Hd.
  assert (Hnan : _filter_nts_data nts_data (pre ++ (d, CNaN) :: post)
                 = _filter_nts_data nts_data (pre ++ post)).
  { unfold _filter_nts_data. now rewrite build_df_filter_skip_nan. }
  assert (Hexact : forall z : Z,
             ~ In d (map fst (pre ++ post)) ->
             _filter_nts_data nts_data (pre ++ (d, CInt z) :: post)
             = rmap (List.filter
                       (fun r => bool_decide (col r d = Some (CInt z))))
                    (_filter_nts_data nts_data (pre ++ post))).
  { intros z Hkeys.
    assert (Hp : d <> purpose_col) by (destruct Hd as [-> | ->]; discriminate).
    unfold _filter_nts_data.
    rewrite build_df_filter_exact;
      [|exact Hd|intros H; apply Hkeys; rewrite map_app; apply in_or_app; now right].
    destruct (build_df_filter (pre ++ post) ∅) as [m|e] eqn:E; [|reflexivity].
    cbn [rmap rbind]. f_equal. unfold filter_df.
    pose proof (build_df_filter_lookup _ d _ _ Hkeys Hp E) as Hm.
    rewrite lookup_empty in Hm.
    rewrite <- filter_andb. apply filter_ext. intros r.
    now rewrite row_passes_insert, column_passes_scalar. }
  split; [exact Hnan|]. split; [|exact Hexact].
  intros Hnd Hok.
  pose proof (filter_nts_data_spec nts_data (pre ++ post) Hnd Hok) as Hspec.
  split.
  - rewrite Hnan. exact Hspec.
  - intros z Hkeys. rewrite (Hexact z Hkeys), Hspec. cbn [rmap rbind].
    f_equal. rewrite <- filter_andb. apply filter_ext. intros r.
    apply andb_comm.
Qed.

(** *** The geo filter *)

Lemma append_empty_r (s : string) : (s ++ "")%string = s.
Proof.
  induction s as [|c s IH]; [reflexivity|].
  change (String c (s ++ "")%string = String c s). now rewrite IH.
Qed.

Lemma od_geo_filter_unsupported
    (nts_data : DataFrame) (geo_area : GeoArea) (t : TripFilter) :
  t <> TRIP_OD -> t <> TRIP_O -> t <> TRIP_D ->
  _apply_od_geo_filter nts_data geo_area t =
  Raise (ValueError ("Don't know how to apply the OD filter " ++ TripFilter_str t)).
Proof.
  intros H1 H2 H3. destruct t; try congruence. reflexivity.
Qed.

Lemma col_transpose_od (r : row) (k : string) :
  col (transpose_od r) k =
  if hb_to_mask r then
    (if decide (k = dest_gor_col) then col r orig_gor_col
     else if decide (k = orig_gor_col) then col r dest_gor_col
     else col r k)
  else col r k.
Proof.
  unfold transpose_od. destruct (hb_to_mask r); [|reflexivity].
  unfold col, set_attrs. cbn [attrs]. rewrite !lookup_partial_alter.
  repeat case_decide; subst; try reflexivity; congruence.
Qed.

Lemma isin_gors_in_area (geo_area : GeoArea) (column : string) (r : row) :
  isin_gors geo_area column r = true <-> in_area geo_area column r.
Proof.
  unfold isin_gors, in_area. destruct (col r column) as [c|]; cbn.
  - rewrite bool_decide_eq_true, list_elem_of_In. split.
    + intros H. now exists c.
    + intros (c' & E & H). now inversion E; subst.
  - split; [discriminate|]. now intros (c' & E & _).
Qed.

(** C9: a trip filter mode other than OD, O and D makes the geo filter
    raise a [ValueError] whose message contains the mode, and no rows
    are returned.  For OD, O and D the rows returned are, in their
    order, the rows of the data, origin and destination exchanged on
    the ["hb_to"] rows and on no other, whose origin and destination,
    whose origin, or whose destination is among the codes of the
    area. *)
Theorem geo_filter_modes
    (nts_data : DataFrame) (geo_area : GeoArea) (t : TripFilter) :
  (t <> TRIP_OD -> t <> TRIP_O -> t <> TRIP_D ->
   (exists msg,
      _apply_geo_filter nts_data geo_area t = Raise (ValueError msg) /\
      mentions msg (TripFilter_str t)) /\
   (exists msg,
      _apply_od_geo_filter nts_data geo_area t = Raise (ValueError msg) /\
      mentions msg (TripFilter_str t))) /\
  (forall keep : row -> bool,
     is_od_type TRIP_OD = true ->
     (forall r, keep r = true <->
                in_area geo_area "TripOrigGOR_B02ID" r /\
                in_area geo_area "TripDestGOR_B02ID" r) ->
     _apply_geo_filter nts_data geo_area TRIP_OD =
     Ok (List.filter keep (map transpose_od nts_data))) /\
  (forall keep : row -> bool,
     is_od_type TRIP_O = true ->
     (forall r, keep r = true <-> in_area geo_area "TripOrigGOR_B02ID" r) ->
     _apply_geo_filter nts_data geo_area TRIP_O =
     Ok (List.filter keep (map transpose_od nts_data))) /\
  (forall keep : row -> bool,
     is_od_type TRIP_D = true ->
     (forall r, keep r = true <-> in_area geo_area "TripDestGOR_B02ID" r) ->
     _apply_geo_filter nts_data geo_area TRIP_D =
     Ok (List.filter keep (map transpose_od nts_data))) /\
  (forall r : row,
     (col r "trip_origin" = Some (CStr "hb_to") ->
      col (transpose_od r) "TripOrigGOR_B02ID" = col r "TripDestGOR_B02ID" /\
      col (transpose_od r) "TripDestGOR_B02ID" = col r "TripOrigGOR_B02ID" /\
      (forall c, c <> "TripOrigGOR_B02ID" -> c <> "TripDestGOR_B02ID" ->
                 col (transpose_od r) c = col r c) /\
      trip_dist (transpose_od r) = trip_dist r /\
      trip_count (transpose_od r) = trip_count r) /\
     (col r "trip_origin" <> Some (CStr "hb_to") -> transpose_od r = r)).
Proof.
  assert (Hext : forall (keep test : row -> bool) (P : row -> Prop),
             (forall r, keep r = true <-> P r) ->
             (forall r, test r = true <-> P r) ->
             List.filter test (map transpose_od nts_data)
             = List.filter keep (map transpose_od nts_data)).
  { intros keep test P Hkeep Htest. apply filter_ext. intros r.
    apply eq_true_iff_eq. now rewrite Hkeep, Htest. }
  split; [|split; [|split; [|split]]].
  - intros H1 H2 H3. split.
    + unfold _apply_geo_filter. destruct (is_od_type t).
      * rewrite od_geo_filter_unsupported by assumption.
        eexists. split; [reflexivity|].
        exists "Don't know how to apply the OD filter ", "".
        now rewrite append_empty_r.
      * eexists. split; [reflexivity|].
        now exists "Don't know how to apply to filter '", "'".
    + rewrite od_geo_filter_unsupported by assumption.
      eexists. split; [reflexivity|].
      exists "Don't know how to apply the OD filter ", "".
      now rewrite append_empty_r.
  - intros keep H Hkeep. unfold _apply_geo_filter. rewrite H.
    unfold _apply_od_geo_filter. cbn. rewrite <- filter_andb. f_equal.
    apply (Hext keep _ _ Hkeep). intros r.
    rewrite andb_true_iff, !isin_gors_in_area. tauto.
  - intros keep H Hkeep. unfold _apply_geo_filter. rewrite H.
    unfold _apply_od_geo_filter. cbn. f_equal.
    apply (Hext keep _ _ Hkeep). intros r. apply isin_gors_in_area.
  - intros keep H Hkeep. unfold _apply_geo_filter. rewrite H.
    unfold _apply_od_geo_filter. cbn. f_equal.
    apply (Hext keep _ _ Hkeep). intros r. apply isin_gors_in_area.
  - intros r. split.
    + intros Hto.
      assert (Hmask : hb_to_mask r = true).
      { unfold hb_to_mask. now apply bool_decide_eq_true. }
      split; [|split; [|split; [|split]]].
      * rewrite col_transpose_od, Hmask. reflexivity.
      * rewrite col_transpose_od, Hmask. reflexivity.
      * intros c Ho Hd. rewrite col_transpose_od, Hmask.
        destruct (decide (c = dest_gor_col)) as [E|_]; [contradiction|].
        destruct (decide (c = orig_gor_col)) as [E|_]; [contradiction|].
        reflexivity.
      * unfold transpose_od. now rewrite Hmask.
      * unfold transpose_od. now rewrite Hmask.
    + intros Hto. unfold transpose_od.
      assert (Hmask : hb_to_mask r = false).
      { unfold hb_to_mask. now apply bool_decide_eq_false. }
      now rewrite Hmask.
Qed.

(** *** The loop of [build_tld] *)

Lemma build_tld_segment_failed
    (tld_data : DataFrame) (bands : list (Q * Q))
    (segmentation : SegmentationLevel) (cost_units : CostUnits)
    (sample_threshold : Z) (st : tld_state) (params : segment_params)
    (data_subset : DataFrame) :
  _filter_nts_data tld_data params = Ok data_subset ->
  (Z.of_nat (length data_subset) < sample_threshold)%Z ->
  build_tld_segment tld_data bands segmentation cost_units sample_threshold
    st params =
  Ok {| name_to_distribution := name_to_distribution st;
        sample_size_log := sample_size_log st;
        full_export := full_export st;
        warnings := warnings st
          ++ [mk_warning params sample_threshold (length data_subset)] |}.
Proof.
  intros Hf Hlt. unfold build_tld_segment. rewrite Hf. cbn [rbind].
  apply Z.ltb_lt in Hlt. now rewrite Hlt.
Qed.

Lemma build_tld_segment_passed
    (tld_data : DataFrame) (bands : list (Q * Q))
    (segmentation : SegmentationLevel) (cost_units : CostUnits)
    (sample_threshold : Z) (st : tld_state) (params : segment_params)
    (data_subset : DataFrame) (band_edges : list Q) :
  _filter_nts_data tld_data params = Ok data_subset ->
  (sample_threshold <= Z.of_nat (length data_subset))%Z ->
  band_edges_of bands = Ok band_edges ->
  build_tld_segment tld_data bands segmentation cost_units sample_threshold
    st params =
  Ok {| name_to_distribution :=
          <[_generate_tld_name segmentation params :=
              _build_cost_distribution data_subset band_edges cost_units]>
            (name_to_distribution st);
        sample_size_log :=
          sample_size_log st
            ++ [mk_log_line params (length data_subset) "Passed"];
        full_export :=
          full_export st
            ++ [to_df (_build_cost_distribution data_subset band_edges cost_units)
                  params];
        warnings := warnings st |}.
Proof.
  intros Hf Hge He. unfold build_tld_segment. rewrite Hf. cbn [rbind].
  apply Z.ltb_ge in Hge. rewrite Hge, He. reflexivity.
Qed.

Lemma segment_passes_true
    (tld_data : DataFrame) (sample_threshold : Z) (params : segment_params) :
  segment_passes tld_data sample_threshold params = true <->
  exists data_subset,
    _filter_nts_data tld_data params = Ok data_subset /\
    (sample_threshold <= Z.of_nat (length data_subset))%Z.
Proof.
  unfold segment_passes, segment_subset.
  destruct (_filter_nts_data tld_data params) as [ds|e]; cbn.
  - rewrite negb_true_iff, Z.ltb_ge. split.
    + intros H. now exists ds.
    + intros (ds' & E & H). now inversion E.
  - split; [discriminate|]. now intros (ds' & E & _).
Qed.

(** What a completed loop has collected: the lines and the exports of
    the segments that passed, and a warning for each of the others. *)
Lemma build_tld_loop_collects
    (tld_data : DataFrame) (bands : list (Q * Q))
    (segmentation : SegmentationLevel) (cost_units : CostUnits)
    (sample_threshold : Z) (todo : list segment_params) (st st' : tld_state) :
  build_tld_loop tld_data bands segmentation cost_units sample_threshold
    st todo = Ok st' ->
  sample_size_log st' =
    sample_size_log st
      ++ map (passed_line tld_data)
           (List.filter (segment_passes tld_data sample_threshold) todo) /\
  full_export st' =
    full_export st
      ++ map (fun params =>
                to_df (segment_tld tld_data bands cost_units params) params)
           (List.filter (segment_passes tld_data sample_threshold) todo) /\
  warnings st' =
    warnings st
      ++ map (fun params =>
                mk_warning params sample_threshold
                  (length (segment_subset tld_data params)))
           (List.filter (segment_fails tld_data sample_threshold) todo).
Proof.
  revert st. induction todo as [|params todo IH]; intros st H.
  - cbn in H. inversion H; subst. cbn. now rewrite !app_nil_r.
  - cbn [build_tld_loop] in H.
    destruct (build_tld_segment tld_data bands segmentation cost_units
                sample_threshold st params) as [st1|e] eqn:E;
      cbn [rbind] in H; [|discriminate].
    destruct (IH st1 H) as (Hlog & Hexp & Hwarn). clear IH H.
    unfold build_tld_segment in E.
    destruct (_filter_nts_data tld_data params) as [ds|e] eqn:Ef;
      cbn [rbind] in E; [|discriminate].
    assert (Hsub : segment_subset tld_data params = ds)
      by (unfold segment_subset; now rewrite Ef).
    assert (Hline : passed_line tld_data params
                    = mk_log_line params (length ds) "Passed")
      by (unfold passed_line; now rewrite Hsub).
    cbn [List.filter].
    destruct (Z.of_nat (length ds) <? sample_threshold)%Z eqn:Elt.
    + assert (Hpass : segment_passes tld_data sample_threshold params = false)
        by (unfold segment_passes; rewrite Ef, Hsub, Elt; reflexivity).
      unfold segment_fails at 1. rewrite Hpass. cbn [negb map].
      inversion E; subst st1; clear E.
      cbn [warnings sample_size_log full_export] in Hlog, Hexp, Hwarn.
      rewrite Hlog, Hexp, Hwarn, Hsub, <- app_assoc. auto.
    + assert (Hpass : segment_passes tld_data sample_threshold params = true)
        by (unfold segment_passes; rewrite Ef, Hsub, Elt; reflexivity).
      unfold segment_fails at 1. rewrite Hpass. cbn [negb map].
      destruct (band_edges_of bands) as [band_edges|e] eqn:Eb;
        cbn [rbind] in E; [|discriminate].
      assert (Htld : segment_tld tld_data bands cost_units params
                     = _build_cost_distribution ds band_edges cost_units)
        by (unfold segment_tld; now rewrite Hsub, Eb).
      inversion E; subst st1; clear E.
      cbn [warnings sample_size_log full_export] in Hlog, Hexp, Hwarn.
      rewrite Hlog, Hexp, Hwarn, Hline, Htld, <- !app_assoc. auto.
Qed.

(** The loop completes when the bands table has a row and the segment
    filter raises for no segment. *)
Lemma build_tld_loop_total
    (tld_data : DataFrame) (bands : list (Q * Q))
    (segmentation : SegmentationLevel) (cost_units : CostUnits)
    (sample_threshold : Z) (todo : list segment_params) (st : tld_state) :
  bands <> [] ->
  Forall (fun params => is_ok (_filter_nts_data tld_data params) = true) todo ->
  exists st',
    build_tld_loop tld_data bands segmentation cost_units sample_threshold
      st todo = Ok st'.
Proof.
  intros Hb H. revert st. induction H as [|params todo Hp _ IH]; intros st.
  - now exists st.
  - cbn [build_tld_loop]. unfold build_tld_segment.
    destruct (_filter_nts_data tld_data params) as [ds|e]; [|discriminate].
    cbn [rbind].
    destruct (Z.of_nat (length ds) <? sample_threshold)%Z; [apply IH|].
    destruct bands as [|b bands]; [contradiction|]. cbn [band_edges_of map rbind].
    apply IH.
Qed.

(** The loop completes, whatever the bands table, when every segment is
    filtered without an error and is under-sampled. *)
Lemma build_tld_loop_all_failed
    (tld_data : DataFrame) (bands : list (Q * Q))
    (segmentation : SegmentationLevel) (cost_units : CostUnits)
    (sample_threshold : Z) (todo : list segment_params) (st : tld_state) :
  (forall params data_subset,
     In params todo ->
     _filter_nts_data tld_data params = Ok data_subset ->
     (Z.of_nat (length data_subset) < sample_threshold)%Z) ->
  Forall (fun params => is_ok (_filter_nts_data tld_data params) = true) todo ->
  exists st',
    build_tld_loop tld_data bands segmentation cost_units sample_threshold
      st todo = Ok st'.
Proof.
  intros Hall Hok. revert st.
  induction Hok as [|params todo Hp _ IH]; intros st; [now exists st|].
  cbn [build_tld_loop].
  destruct (_filter_nts_data tld_data params) as [ds|e] eqn:Ef; [|discriminate].
  rewrite (build_tld_segment_failed _ _ _ _ _ _ _ ds);
    [|exact Ef|apply (Hall params ds); [now left|exact Ef]].
  cbn [rbind]. apply IH. intros p d Hin. apply Hall. now right.
Qed.

Lemma column_min_first (first : Q) (column : list Q) :
  Forall (fun x => first <= x) column -> column_min first column == first.
Proof.
  unfold column_min. induction 1 as [|x column Hx _ IH]; cbn [fold_right].
  - reflexivity.
  - rewrite Q.min_r; [exact IH|]. rewrite IH. exact Hx.
Qed.

(** C2, as amended: for a bands table with at least one row, [build_tld]
    gives the cost distribution builder the edge array made of the
    first value of the column ["lower"] followed by the values of the
    column ["upper"], in that order; the first value is the minimum of
    the column when no later value is below it. *)
Theorem band_edges_first_lower
    (tld_data : DataFrame) (bands : list (Q * Q))
    (segmentation : SegmentationLevel) (cost_units : CostUnits)
    (sample_threshold : Z) (st : tld_state) (params : segment_params)
    (data_subset : DataFrame) (lower upper : Q) (rest : list (Q * Q)) :
  bands = (lower, upper) :: rest ->
  _filter_nts_data tld_data params = Ok data_subset ->
  (sample_threshold <= Z.of_nat (length data_subset))%Z ->
  let band_edges := lower :: map snd bands in
  let tld := _build_cost_distribution data_subset band_edges cost_units in
  band_edges_of bands = Ok band_edges /\
  build_tld_segment tld_data bands segmentation cost_units sample_threshold
    st params =
  Ok {| name_to_distribution :=
          <[_generate_tld_name segmentation params := tld]>
            (name_to_distribution st);
        sample_size_log :=
          sample_size_log st
            ++ [mk_log_line params (length data_subset) "Passed"];
        full_export := full_export st ++ [to_df tld params];
        warnings := warnings st |} /\
  edges tld = band_edges /\
  (Forall (fun b => lower <= fst b) rest ->
   column_min lower (map fst rest) == lower).
Proof.
  intros Hb Hf Hge band_edges tld.
  assert (He : band_edges_of bands = Ok band_edges) by (now subst bands).
  split; [exact He|].
  split; [now apply build_tld_segment_passed|].
  split; [reflexivity|].
  intros H. apply column_min_first. apply List.Forall_map. exact H.
Qed.

(** C6, as amended: when the filtered row count of no segment reaches
    the sample threshold, [build_tld] raises an error: the one of the
    concatenation of an empty list when the segment filter itself raised
    none.  When a segment reaches the threshold, the bands table has at
    least one row and the segment filter raises for no segment,
    [build_tld] returns, with the exports of the segments that passed
    concatenated. *)
Theorem build_tld_empty_export
    (tld_data : DataFrame) (bands : list (Q * Q))
    (segmentation : SegmentationLevel) (cost_units : CostUnits)
    (sample_threshold : Z) :
  ((forall params data_subset,
      In params (segments segmentation) ->
      _filter_nts_data tld_data params = Ok data_subset ->
      (Z.of_nat (length data_subset) < sample_threshold)%Z) ->
   exists e,
     build_tld tld_data bands segmentation cost_units sample_threshold
       = Raise e /\
     (Forall (fun params => is_ok (_filter_nts_data tld_data params) = true)
        (segments segmentation) ->
      e = ValueError "No objects to concatenate")) /\
  (bands <> [] ->
   Forall (fun params => is_ok (_filter_nts_data tld_data params) = true)
     (segments segmentation) ->
   (exists params data_subset,
      In params (segments segmentation) /\
      _filter_nts_data tld_data params = Ok data_subset /\
      (sample_threshold <= Z.of_nat (length data_subset))%Z) ->
   exists out,
     build_tld tld_data bands segmentation cost_units sample_threshold
       = Ok out /\
     out_full_export out =
       concat
         (map (fun params =>
                 to_df (segment_tld tld_data bands cost_units params) params)
            (List.filter (segment_passes tld_data sample_threshold)
               (segments segmentation)))).
Proof.
  split.
  - intros Hall.
    assert (Hnone : List.filter (segment_passes tld_data sample_threshold)
                      (segments segmentation) = []).
    { apply filter_nothing. intros params Hin.
      destruct (segment_passes tld_data sample_threshold params) eqn:E;
        [|reflexivity].
      apply segment_passes_true in E as (ds & Ef & Hge).
      pose proof (Hall params ds Hin Ef). lia. }
    unfold build_tld.
    destruct (build_tld_loop tld_data bands segmentation cost_units
                sample_threshold init_state (segments segmentation))
      as [st|e] eqn:E; cbn [rbind].
    + apply build_tld_loop_collects in E as (_ & Hexp & _).
      rewrite Hnone in Hexp. cbn in Hexp. rewrite Hexp. cbn.
      eexists. split; [reflexivity|]. auto.
    + exists e. split; [reflexivity|]. intros Hok.
      assert (Hsome : exists st' : tld_state, Raise e = Ok st').
      { rewrite <- E. now apply build_tld_loop_all_failed. }
      destruct Hsome as [st' Hst']. discriminate.
  - intros Hb Hok (params & ds & Hin & Ef & Hge).
    destruct (build_tld_loop_total tld_data bands segmentation cost_units
                sample_threshold (segments segmentation) init_state Hb Hok)
      as [st E].
    unfold build_tld. rewrite E. cbn [rbind].
    apply build_tld_loop_collects in E as (_ & Hexp & _).
    cbn [init_state full_export app] in Hexp.
    assert (Hin' : In params (List.filter (segment_passes tld_data sample_threshold)
                               (segments segmentation))).
    { apply filter_In. split; [exact Hin|].
      apply segment_passes_true. now exists ds. }
    rewrite Hexp.
    destruct (List.filter (segment_passes tld_data sample_threshold)
                (segments segmentation)) as [|p ps]; [destruct Hin'|].
    cbn [map pd_concat rbind]. eexists. split; reflexivity.
Qed.

(** C7, as amended: a segment with exactly [sample_threshold] rows
    passes: with a bands table of at least one row its line is logged
    as passed and its cost distribution is built, exported and
    registered under its name, and the loop goes on; with a bands table
    of no row the derivation of the edges raises [IndexError] and the
    loop stops.  A segment with [sample_threshold - 1] rows fails:
    nothing is built for it, a warning is logged, and the loop goes on
    with the remaining segments. *)
Theorem threshold_boundary
    (tld_data : DataFrame) (bands : list (Q * Q))
    (segmentation : SegmentationLevel) (cost_units : CostUnits)
    (sample_threshold : Z) (st : tld_state) (params : segment_params)
    (todo : list segment_params) (data_subset : DataFrame) :
  _filter_nts_data tld_data params = Ok data_subset ->
  (Z.of_nat (length data_subset) = sample_threshold ->
   (forall lower upper rest,
      bands = (lower, upper) :: rest ->
      let band_edges := lower :: upper :: map snd rest in
      let tld := _build_cost_distribution data_subset band_edges cost_units in
      let st' :=
        {| name_to_distribution :=
             <[_generate_tld_name segmentation params := tld]>
               (name_to_distribution st);
           sample_size_log :=
             sample_size_log st
               ++ [mk_log_line params (length data_subset) "Passed"];
           full_export := full_export st ++ [to_df tld params];
           warnings := warnings st |} in
      build_tld_segment tld_data bands segmentation cost_units sample_threshold
        st params = Ok st' /\
      name_to_distribution st' !! _generate_tld_name segmentation params
        = Some tld /\
      build_tld_loop tld_data bands segmentation cost_units sample_threshold
        st (params :: todo)
      = build_tld_loop tld_data bands segmentation cost_units sample_threshold
          st' todo) /\
   (bands = [] ->
    build_tld_segment tld_data bands segmentation cost_units sample_threshold
      st params
    = Raise (IndexError "index 0 is out of bounds for axis 0 with size 0") /\
    build_tld_loop tld_data bands segmentation cost_units sample_threshold
      st (params :: todo)
    = Raise (IndexError "index 0 is out of bounds for axis 0 with size 0"))) /\
  (Z.of_nat (length data_subset) = (sample_threshold - 1)%Z ->
   let st' :=
     {| name_to_distribution := name_to_distribution st;
        sample_size_log := sample_size_log st;
        full_export := full_export st;
        warnings :=
          warnings st
            ++ [mk_warning params sample_threshold (length data_subset)] |} in
   build_tld_segment tld_data bands segmentation cost_units sample_threshold
     st params = Ok st' /\
   build_tld_loop tld_data bands segmentation cost_units sample_threshold
     st (params :: todo)
   = build_tld_loop tld_data bands segmentation cost_units sample_threshold
       st' todo).
Proof.
  intros Hf. split.
  - intros Hn. split.
    + intros lower upper rest Hb band_edges tld st'.
      assert (E : build_tld_segment tld_data bands segmentation cost_units
                    sample_threshold st params = Ok st').
      { apply build_tld_segment_passed; [exact Hf | lia | now subst bands]. }
      repeat split.
      * exact E.
      * apply lookup_insert_eq.
      * cbn [build_tld_loop]. now rewrite E.
    + intros Hb.
      assert (E : build_tld_segment tld_data bands segmentation cost_units
                    sample_threshold st params
                  = Raise (IndexError
                             "index 0 is out of bounds for axis 0 with size 0")).
      { unfold build_tld_segment. rewrite Hf. cbn [rbind].
        assert (Hge : (Z.of_nat (length data_subset) <? sample_threshold)%Z
                      = false) by (apply Z.ltb_ge; lia).
        rewrite Hge. subst bands. reflexivity. }
      split; [exact E|]. cbn [build_tld_loop]. now rewrite E.
  - intros Hn st'.
    assert (E : build_tld_segment tld_data bands segmentation cost_units
                  sample_threshold st params = Ok st').
    { apply build_tld_segment_failed; [exact Hf | lia]. }
    split; [exact E|]. cbn [build_tld_loop]. now rewrite E.
Qed.

End Properties.

(** ** Names, paths and copies: properties *)

Lemma prefix_iff (p s : string) :
  String.prefix p s = true <-> exists t, s = (p ++ t)%string.
Proof.
  revert s. induction p as [|a p IH]; intros s.
  - split; [intros _; now exists s | intros _; now destruct s].
  - destruct s as [|b s]; cbn [String.prefix].
    + split; [discriminate | intros [t H]; discriminate H].
    + destruct (Ascii.ascii_dec a b) as [<-|Hne].
      * rewrite IH. split; intros [t H]; exists t.
        -- now rewrite H.
        -- change (String a s = String a (p ++ t)) in H. now inversion H.
      * split; [discriminate|]. intros [t H].
        change (String b s = String a (p ++ t)) in H. inversion H. congruence.
Qed.

Lemma prefix_refl (s : string) : String.prefix s s = true.
Proof.
  apply prefix_iff. exists EmptyString. symmetry. apply append_empty_r.
Qed.

Lemma str_in_app_r (sub s : string) : str_in sub (s ++ sub)%string = true.
Proof.
  induction s as [|c s IH].
  - destruct sub as [|a sub]; [reflexivity|].
    change (String.prefix (String a sub) (String a sub)
            || str_in (String a sub) sub = true).
    now rewrite prefix_refl.
  - change (String.prefix sub (String c (s ++ sub))
            || str_in sub (s ++ sub)%string = true).
    rewrite IH. apply orb_true_r.
Qed.

Lemma str_in_cons (sub : string) (c : Ascii.ascii) (s : string) :
  str_in sub (String c s) = String.prefix sub (String c s) || str_in sub s.
Proof. reflexivity. Qed.

(** An occurrence of [".csv"] at the start of [s ++ ".csv"] lies within
    [s], unless [s] is empty. *)
Lemma prefix_csv_app (s : string) :
  String.prefix ".csv" (s ++ ".csv")%string = true ->
  String.prefix ".csv" s = true \/ s = EmptyString.
Proof.
  rewrite !prefix_iff. intros [t H].
  destruct s as [|c1 [|c2 [|c3 [|c4 s]]]]; [now right|..]; left;
    cbn in H; inversion H; subst; try discriminate.
  now exists s.
Qed.

Lemma replace_go_cons (old new : string) (c : Ascii.ascii) (s : string) :
  replace_go old new 0 (String c s) =
  if String.prefix old (String c s)
  then (new ++ replace_go old new (String.length old - 1) s)%string
  else String c (replace_go old new 0 s).
Proof. reflexivity. Qed.

Lemma replace_go_skip (old new s : string) :
  replace_go old new (String.length s) s = EmptyString.
Proof.
  induction s as [|c s IH]; [reflexivity | exact IH].
Qed.

Lemma replace_go_self (a : Ascii.ascii) (old new : string) :
  replace_go (String a old) new 0 (String a old) = new.
Proof.
  rewrite replace_go_cons, prefix_refl.
  change (String.length (String a old) - 1)%nat with (String.length old - 0)%nat.
  rewrite Nat.sub_0_r, replace_go_skip. apply append_empty_r.
Qed.

(** Replacing [".csv"] in [name ++ ".csv"] replaces the extension only,
    when [name] holds no [".csv"]. *)
Lemma str_replace_extension (name new : string) :
  str_in ".csv" name = false ->
  str_replace ".csv" new (name ++ ".csv")%string = (name ++ new)%string.
Proof.
  intros H. change (replace_go ".csv" new 0 (name ++ ".csv") = (name ++ new)%string).
  induction name as [|c name IH].
  - exact (replace_go_self _ _ new).
  - rewrite str_in_cons in H. apply orb_false_iff in H as [Hp Hin].
    change (String c name ++ ".csv")%string with (String c (name ++ ".csv")).
    rewrite replace_go_cons.
    destruct (String.prefix ".csv" (String c (name ++ ".csv"))) eqn:E.
    + apply (prefix_csv_app (String c name)) in E as [E|E];
        [congruence | discriminate].
    + rewrite (IH Hin). reflexivity.
Qed.

Lemma append_length (s t : string) :
  String.length (s ++ t) = (String.length s + String.length t)%nat.
Proof.
  induction s as [|c s IH]; [reflexivity|].
  change (S (String.length (s ++ t)) = S (String.length s + String.length t)).
  now rewrite IH.
Qed.

Lemma append_inj_r (s1 s2 t : string) :
  (s1 ++ t)%string = (s2 ++ t)%string -> s1 = s2.
Proof.
  revert s2. induction s1 as [|c s1 IH]; intros [|d s2] H.
  - reflexivity.
  - apply (f_equal String.length) in H.
    rewrite !append_length in H. cbn [String.length] in H. lia.
  - apply (f_equal String.length) in H.
    rewrite !append_length in H. cbn [String.length] in H. lia.
  - change (String c (s1 ++ t) = String d (s2 ++ t)) in H.
    inversion H as [[Hc Ht]]. f_equal. now apply IH.
Qed.

Lemma get_name_and_fname_both (name : string) :
  str_in ".csv" name = false ->
  _get_name_and_fname name = ((name ++ ".csv")%string, name) /\
  _get_name_and_fname (name ++ ".csv") = ((name ++ ".csv")%string, name).
Proof.
  intros H. unfold _get_name_and_fname. rewrite H, str_in_app_r.
  split; [reflexivity|]. f_equal.
  rewrite (str_replace_extension name "" H). apply append_empty_r.
Qed.

(** X1: a name without [".csv"] and the same name with the extension
    are taken for the same file: both give the file name with the
    extension and the name without it. *)
Theorem get_name_and_fname_round_trip (name : string) :
  str_in ".csv" name = false ->
  _get_name_and_fname name = ((name ++ ".csv")%string, name) /\
  _get_name_and_fname (name ++ ".csv") = ((name ++ ".csv")%string, name).
Proof.
  intros H. split.
  - unfold _get_name_and_fname. now rewrite H.
  - unfold _get_name_and_fname. rewrite str_in_app_r. f_equal.
    rewrite (str_replace_extension name "" H). apply append_empty_r.
Qed.

(** X2: the file name [_get_name_and_fname] returns always holds the
    extension [".csv"]. *)
Theorem get_name_and_fname_extension (band_or_seg_name : string) :
  str_in ".csv" (fst (_get_name_and_fname band_or_seg_name)) = true.
Proof.
  unfold _get_name_and_fname.
  destruct (str_in ".csv" band_or_seg_name) eqn:E; cbn [fst];
    [exact E | apply str_in_app_r].
Qed.

Section OutputProperties.

Context `{out : OutputCollaborators}.
Variable output_folder : string.

(** X3: the output path does not depend on whether the bands name is
    given with or without its extension. *)
Theorem build_output_path_extension
    (geo_area : GeoArea) (trip_filter_type : TripFilter) (bands_name : string)
    (segmentation : SegmentationLevel) (sample_period : SampleTimePeriods)
    (cost_units : CostUnits) :
  str_in ".csv" bands_name = false ->
  build_output_path output_folder geo_area trip_filter_type
    (bands_name ++ ".csv") segmentation sample_period cost_units
  = build_output_path output_folder geo_area trip_filter_type
      bands_name segmentation sample_period cost_units.
Proof.
  intros H. unfold build_output_path.
  destruct (get_name_and_fname_both bands_name H) as [E1 E2].
  now rewrite E1, E2.
Qed.

Lemma flat_map_length_const {A B : Type} (f : A -> list B) (n : nat) (l : list A) :
  (forall x, length (f x) = n) -> length (flat_map f l) = (length l * n)%nat.
Proof.
  intros H. induction l as [|x l IH]; [reflexivity|].
  cbn [flat_map]. rewrite length_app, H, IH. reflexivity.
Qed.

(** X4: [copy_across_tps] plans one copy for every segment of the
    segmentation and every time period of the sample period, and the file
    names [generate_output_paths] returns are one for every segment. *)
Theorem copy_across_tps_count
    (geo_area : GeoArea) (trip_filter_type : TripFilter) (bands_name : string)
    (segmentation : SegmentationLevel) (sample_period : SampleTimePeriods)
    (cost_units : CostUnits) :
  length (copy_across_tps output_folder geo_area trip_filter_type bands_name
            segmentation sample_period cost_units)
  = (length (segments segmentation)
     * length (get_time_periods sample_period))%nat /\
  length (snd (generate_output_paths output_folder geo_area trip_filter_type
                 bands_name segmentation sample_period cost_units))
  = length (segments segmentation).
Proof.
  unfold copy_across_tps, generate_output_paths. cbn [snd]. split.
  - rewrite (flat_map_length_const _ (length (get_time_periods sample_period))).
    + now rewrite length_map.
    + intros fname. now rewrite length_map.
  - now rewrite length_map.
Qed.

Lemma flat_map_map {A B C : Type} (g : A -> B) (f : B -> list C) (l : list A) :
  flat_map f (map g l) = flat_map (fun x => f (g x)) l.
Proof.
  induction l as [|x l IH]; [reflexivity|]. cbn. now rewrite IH.
Qed.

Lemma flat_map_ext_In {A B : Type} (f g : A -> list B) (l : list A) :
  (forall x, In x l -> f x = g x) -> flat_map f l = flat_map g l.
Proof.
  induction l as [|x l IH]; intros H; [reflexivity|].
  cbn [flat_map]. rewrite (H x) by now left.
  rewrite IH; [reflexivity|]. intros y Hy. apply H. now right.
Qed.

(** X5: when the name of no segment holds [".csv"], the copy of the
    file [name.csv] for the time period [tp] goes to
    [tp_copied/name_tp<tp>.csv], and the copies of one file for two
    different time periods have different names. *)
Theorem copy_across_tps_names
    (geo_area : GeoArea) (trip_filter_type : TripFilter) (bands_name : string)
    (segmentation : SegmentationLevel) (sample_period : SampleTimePeriods)
    (cost_units : CostUnits) :
  Forall (fun params =>
            str_in ".csv" (_generate_tld_name segmentation params) = false)
         (segments segmentation) ->
  let base_path :=
    build_output_path output_folder geo_area trip_filter_type bands_name
      segmentation sample_period cost_units in
  copy_across_tps output_folder geo_area trip_filter_type bands_name
    segmentation sample_period cost_units
  = flat_map
      (fun params =>
         let name := _generate_tld_name segmentation params in
         map (fun tp =>
                (path_div base_path (name ++ ".csv"),
                 path_div (path_div base_path "tp_copied")
                   (name ++ "_tp" ++ pretty tp ++ ".csv")))
             (get_time_periods sample_period))
      (segments segmentation) /\
  (forall params tp1 tp2,
     In params (segments segmentation) ->
     tp_out_name (_generate_tld_name segmentation params ++ ".csv") tp1
     = tp_out_name (_generate_tld_name segmentation params ++ ".csv") tp2 ->
     tp1 = tp2).
Proof.
  intros Hnames base_path. rewrite List.Forall_forall in Hnames. split.
  - unfold copy_across_tps, generate_output_paths. fold base_path.
    rewrite flat_map_map. apply flat_map_ext_In. intros params Hin. cbn zeta.
    apply map_ext. intros tp. unfold tp_out_name.
    now rewrite (str_replace_extension _ _ (Hnames params Hin)).
  - intros params tp1 tp2 Hin H. unfold tp_out_name in H.
    rewrite !(str_replace_extension _ _ (Hnames params Hin)) in H.
    apply String.app_inj in H. apply (String.app_inj "_tp") in H.
    apply append_inj_r in H. now apply (inj pretty).
Qed.

End OutputProperties.

(** ** The geo filter and the sample period: properties *)

Lemma filter_map_swap {A B : Type} (p : B -> bool) (f : A -> B) (l : list A) :
  List.filter p (map f l) = map f (List.filter (fun x => p (f x)) l).
Proof.
  induction l as [|x l IH]; [reflexivity|].
  cbn [map List.filter]. destruct (p (f x)); cbn [map]; now rewrite IH.
Qed.

Lemma filter_swap {A : Type} (p q : A -> bool) (l : list A) :
  List.filter p (List.filter q l) = List.filter q (List.filter p l).
Proof.
  rewrite <- !filter_andb. apply filter_ext. intros x. apply andb_comm.
Qed.

Lemma filter_twice {A : Type} (p : A -> bool) (l : list A) :
  List.filter p (List.filter p l) = List.filter p l.
Proof.
  rewrite <- filter_andb. apply filter_ext. intros x. now destruct (p x).
Qed.

Lemma hb_to_mask_transpose_od (r : row) :
  hb_to_mask (transpose_od r) = hb_to_mask r.
Proof.
  unfold hb_to_mask at 1. rewrite col_transpose_od.
  destruct (hb_to_mask r) eqn:E; [|exact E].
  destruct (decide (trip_origin_col = dest_gor_col)) as [Heq|_];
    [discriminate Heq|].
  destruct (decide (trip_origin_col = orig_gor_col)) as [Heq|_];
    [discriminate Heq|].
  exact E.
Qed.

Lemma transpose_od_numbers (r : row) :
  trip_dist (transpose_od r) = trip_dist r /\
  trip_count (transpose_od r) = trip_count r.
Proof.
  unfold transpose_od. destruct (hb_to_mask r); split; reflexivity.
Qed.

Lemma transpose_od_involutive (r : row) : transpose_od (transpose_od r) = r.
Proof.
  destruct (hb_to_mask r) eqn:E.
  - assert (Hcol : forall k, col (transpose_od (transpose_od r)) k = col r k).
    { intros k. rewrite col_transpose_od, hb_to_mask_transpose_od, E.
      rewrite !col_transpose_od, E.
      repeat case_decide; subst; try reflexivity; try discriminate; congruence. }
    assert (Hd : trip_dist (transpose_od (transpose_od r)) = trip_dist r
                 /\ trip_count (transpose_od (transpose_od r)) = trip_count r).
    { destruct (transpose_od_numbers (transpose_od r)) as [-> ->].
      apply transpose_od_numbers. }
    destruct Hd as [Hd Hc].
    destruct (transpose_od (transpose_od r)) as [a d c], r as [a0 d0 c0].
    cbn in Hd, Hc. subst. f_equal. apply map_eq. exact Hcol.
  - unfold transpose_od at 1. rewrite hb_to_mask_transpose_od, E.
    unfold transpose_od. now rewrite E.
Qed.

Lemma isin_gors_transpose_od (geo_area : GeoArea) (r : row) :
  isin_gors geo_area orig_gor_col (transpose_od r) =
    (if hb_to_mask r then isin_gors geo_area dest_gor_col r
     else isin_gors geo_area orig_gor_col r) /\
  isin_gors geo_area dest_gor_col (transpose_od r) =
    (if hb_to_mask r then isin_gors geo_area orig_gor_col r
     else isin_gors geo_area dest_gor_col r).
Proof.
  unfold isin_gors. rewrite !col_transpose_od.
  destruct (hb_to_mask r); split; repeat case_decide; try reflexivity;
    try discriminate; congruence.
Qed.

Section FilterProperties.

Context `{env : Collaborators}.

(** The rows the period selector keeps. *)
Lemma sample_period_transpose_od (sample_period : SampleTimePeriods) (r : row) :
  from_option
    (fun c => bool_decide (c ∈ map CInt (get_time_periods sample_period)))
    false (col (transpose_od r) tp_col)
  = from_option
      (fun c => bool_decide (c ∈ map CInt (get_time_periods sample_period)))
      false (col r tp_col).
Proof.
  rewrite col_transpose_od. destruct (hb_to_mask r); [|reflexivity].
  repeat case_decide; try discriminate; reflexivity.
Qed.

Lemma od_geo_filter_steps (nts_data : DataFrame) (geo_area : GeoArea) :
  _apply_od_geo_filter nts_data geo_area TRIP_OD =
    Ok (List.filter (isin_gors geo_area dest_gor_col)
          (List.filter (isin_gors geo_area orig_gor_col)
             (map transpose_od nts_data))) /\
  _apply_od_geo_filter nts_data geo_area TRIP_O =
    Ok (List.filter (isin_gors geo_area orig_gor_col)
          (map transpose_od nts_data)) /\
  _apply_od_geo_filter nts_data geo_area TRIP_D =
    Ok (List.filter (isin_gors geo_area dest_gor_col)
          (map transpose_od nts_data)).
Proof. repeat split. Qed.

(** X6: the sample period filter and the geo filter can be applied in
    either order: the rows are the same, and so is the error of an
    unsupported trip filter. *)
Theorem sample_period_geo_filter_commute
    (nts_data : DataFrame) (sample_period : SampleTimePeriods)
    (geo_area : GeoArea) (trip_filter_type : TripFilter) :
  _apply_geo_filter (_handle_sample_period nts_data sample_period)
    geo_area trip_filter_type
  = rmap (fun d => _handle_sample_period d sample_period)
      (_apply_geo_filter nts_data geo_area trip_filter_type).
Proof.
  unfold _apply_geo_filter.
  destruct (is_od_type trip_filter_type); [|reflexivity].
  assert (Hmap : forall p : row -> bool,
             List.filter p
               (map transpose_od (_handle_sample_period nts_data sample_period))
             = _handle_sample_period
                 (List.filter p (map transpose_od nts_data)) sample_period).
  { intros p. unfold _handle_sample_period.
    rewrite (filter_swap _ p). f_equal. rewrite filter_map_swap. f_equal.
    apply filter_ext. intros r. symmetry. apply sample_period_transpose_od. }
  destruct trip_filter_type; [| | |reflexivity].
  - rewrite !(proj1 (od_geo_filter_steps _ _)). cbn [rmap rbind]. f_equal.
    rewrite Hmap. unfold _handle_sample_period. apply filter_swap.
  - rewrite !(proj1 (proj2 (od_geo_filter_steps _ _))). cbn [rmap rbind].
    f_equal. apply Hmap.
  - rewrite !(proj2 (proj2 (od_geo_filter_steps _ _))). cbn [rmap rbind].
    f_equal. apply Hmap.
Qed.

Lemma od_geo_filter_both (nts_data : DataFrame) (geo_area : GeoArea) :
  _apply_od_geo_filter nts_data geo_area TRIP_OD =
  Ok (map transpose_od
        (List.filter
           (fun r => isin_gors geo_area orig_gor_col r
                     && isin_gors geo_area dest_gor_col r)
           nts_data)).
Proof.
  unfold _apply_od_geo_filter. cbn. f_equal.
  rewrite <- filter_andb, filter_map_swap. f_equal.
  apply filter_ext. intros r.
  destruct (isin_gors_transpose_od geo_area r) as [-> ->].
  destruct (hb_to_mask r); [reflexivity | apply andb_comm].
Qed.

(** X7: transposing origin and destination twice gives the row back.
    With the filter OD the transposition does not change which trips
    are kept: they are those whose recorded origin and destination are
    both in the area, returned transposed; filtering the result again
    returns the same trips as recorded. *)
Theorem od_geo_filter_transposition
    (nts_data : DataFrame) (geo_area : GeoArea) :
  (forall r, transpose_od (transpose_od r) = r) /\
  (is_od_type TRIP_OD = true ->
   let kept :=
     List.filter
       (fun r => isin_gors geo_area orig_gor_col r
                 && isin_gors geo_area dest_gor_col r)
       nts_data in
   _apply_geo_filter nts_data geo_area TRIP_OD = Ok (map transpose_od kept) /\
   rbind (_apply_geo_filter nts_data geo_area TRIP_OD)
     (fun d => _apply_geo_filter d geo_area TRIP_OD)
   = Ok kept).
Proof.
  split; [exact transpose_od_involutive|].
  intros H kept. unfold _apply_geo_filter. rewrite H.
  rewrite od_geo_filter_both. fold kept. split; [reflexivity|].
  cbn [rbind]. rewrite od_geo_filter_both. f_equal.
  rewrite filter_map_swap, map_map.
  rewrite (map_ext _ (fun r => r)) by exact transpose_od_involutive.
  rewrite map_id. subst kept.
  rewrite (filter_ext _ (fun r => isin_gors geo_area orig_gor_col r
                                  && isin_gors geo_area dest_gor_col r)).
  - apply filter_twice.
  - intros r. destruct (isin_gors_transpose_od geo_area r) as [-> ->].
    destruct (hb_to_mask r); [apply andb_comm | reflexivity].
Qed.

(** X8: with the filter O a trip is kept when its origin is in the
    area, but for a ["hb_to"] trip it is the recorded destination that
    is tested; with the filter D it is the other way round.  The rows
    are returned transposed. *)
Theorem geo_filter_hb_to_rows
    (nts_data : DataFrame) (geo_area : GeoArea) :
  (is_od_type TRIP_O = true ->
   _apply_geo_filter nts_data geo_area TRIP_O =
   Ok (map transpose_od
         (List.filter
            (fun r => if hb_to_mask r then isin_gors geo_area dest_gor_col r
                      else isin_gors geo_area orig_gor_col r)
            nts_data))) /\
  (is_od_type TRIP_D = true ->
   _apply_geo_filter nts_data geo_area TRIP_D =
   Ok (map transpose_od
         (List.filter
            (fun r => if hb_to_mask r then isin_gors geo_area orig_gor_col r
                      else isin_gors geo_area dest_gor_col r)
            nts_data))).
Proof.
  split; intros H; unfold _apply_geo_filter; rewrite H;
    unfold _apply_od_geo_filter; cbn; f_equal;
    rewrite filter_map_swap; f_equal; apply filter_ext; intros r;
    apply (isin_gors_transpose_od geo_area r).
Qed.

End FilterProperties.

(** ** The segment filter: more properties *)

Section SegmentFilterProperties.

Context `{env : Collaborators}.

Lemma delete_insert_agree
    (m1 m2 : gmap string filter_val) (i k : string) (f : filter_val) :
  delete i m1 = delete i m2 ->
  delete i (<[k := f]> m1) = delete i (<[k := f]> m2).
Proof.
  intros H. apply map_eq. intros j.
  destruct (decide (i = j)) as [<-|Hij]; [now rewrite !lookup_delete_eq|].
  rewrite !lookup_delete_ne by exact Hij.
  destruct (decide (k = j)) as [<-|Hkj]; [now rewrite !lookup_insert_eq|].
  rewrite !lookup_insert_ne by exact Hkj.
  apply (f_equal (fun m => m !! j)) in H.
  now rewrite !lookup_delete_ne in H by exact Hij.
Qed.

Lemma insert_agree
    (m1 m2 : gmap string filter_val) (i : string) (f : filter_val) :
  delete i m1 = delete i m2 -> <[i := f]> m1 = <[i := f]> m2.
Proof.
  intros H. rewrite <- (insert_delete_eq m1), <- (insert_delete_eq m2).
  now rewrite H.
Qed.

(** Two filter dictionaries that differ on the purpose column only are
    the same once a user class has been read. *)
Lemma build_df_filter_uc_overrides
    (mid post : segment_params) (uc : cell) (m1 m2 : gmap string filter_val) :
  delete purpose_col m1 = delete purpose_col m2 ->
  build_df_filter (mid ++ ("uc", uc) :: post) m1
  = build_df_filter (mid ++ ("uc", uc) :: post) m2.
Proof.
  revert m1 m2. induction mid as [|[k v] mid IH]; intros m1 m2 H.
  - cbn [app build_df_filter]. repeat case_decide; try congruence.
    destruct (user_class_purposes uc); cbn [rbind]; [|reflexivity].
    now rewrite (insert_agree m1 m2).
  - cbn [app build_df_filter]. repeat case_decide.
    + destruct (to_dict_item v); cbn [rbind]; [|reflexivity].
      now apply IH, delete_insert_agree.
    + destruct (user_class_purposes v); cbn [rbind]; [|reflexivity].
      now apply IH, delete_insert_agree.
    + destruct (np_isnan v) as [[|]|]; cbn [rbind]; [now apply IH| |reflexivity].
      now apply IH, delete_insert_agree.
    + now apply IH, delete_insert_agree.
Qed.

Lemma build_df_filter_drop_purpose
    (pre mid post : segment_params) (v uc : cell) (m : gmap string filter_val) :
  build_df_filter (pre ++ (purpose_col, v) :: mid ++ ("uc", uc) :: post) m
  = build_df_filter (pre ++ mid ++ ("uc", uc) :: post) m.
Proof.
  revert m. induction pre as [|[k w] pre IH]; intros m.
  - cbn [app]. change (build_df_filter ((purpose_col, v) :: mid ++ ("uc", uc) :: post) m)
      with (build_df_filter (mid ++ ("uc", uc) :: post)
              (<[purpose_col := FScalar v]> m)).
    apply build_df_filter_uc_overrides. apply delete_insert_eq.
  - cbn [app build_df_filter]. repeat case_decide.
    + destruct (to_dict_item w); cbn [rbind]; [apply IH | reflexivity].
    + destruct (user_class_purposes w); cbn [rbind]; [apply IH | reflexivity].
    + destruct (np_isnan w) as [[|]|]; cbn [rbind]; auto.
    + apply IH.
Qed.

(** X9: a purpose ["p"] given before a user class ["uc"] in the segment
    parameters has no effect: the user class replaces the filter on the
    purpose column, and the rows, or the error, are those of the
    parameters without the purpose. *)
Theorem segment_filter_uc_replaces_purpose
    (nts_data : DataFrame) (pre mid post : segment_params) (v uc : cell) :
  _filter_nts_data nts_data (pre ++ ("p", v) :: mid ++ ("uc", uc) :: post)
  = _filter_nts_data nts_data (pre ++ mid ++ ("uc", uc) :: post).
Proof.
  unfold _filter_nts_data.
  now rewrite (build_df_filter_drop_purpose pre mid post v uc ∅).
Qed.

Lemma build_df_filter_trip_origin
    (pre post : segment_params) (v : cell) (l : list cell)
    (m : gmap string filter_val) :
  to_dict_item v = Ok l ->
  ~ In "trip_origin" (map fst post) ->
  build_df_filter (pre ++ ("trip_origin", v) :: post) m =
  rmap (insert "trip_origin" (FList l)) (build_df_filter (pre ++ post) m).
Proof.
  intros Hv Hpost. revert m. induction pre as [|[k w] pre IH]; intros m.
  - cbn [app build_df_filter]. repeat case_decide; try congruence.
    rewrite Hv. cbn [rbind]. apply build_df_filter_insert; [exact Hpost|].
    discriminate.
  - cbn [app build_df_filter]. repeat case_decide.
    + destruct (to_dict_item w); cbn [rbind]; [apply IH | reflexivity].
    + destruct (user_class_purposes w); cbn [rbind]; [apply IH | reflexivity].
    + destruct (np_isnan w) as [[|]|]; cbn [rbind]; auto.
    + apply IH.
Qed.

Lemma build_df_filter_trip_origin_unknown
    (pre post : segment_params) (v : cell) (e : exn)
    (m : gmap string filter_val) :
  to_dict_item v = Raise e ->
  is_ok (build_df_filter (pre ++ ("trip_origin", v) :: post) m) = false.
Proof.
  intros Hv. revert m. induction pre as [|[k w] pre IH]; intros m.
  - cbn [app build_df_filter]. repeat case_decide; try congruence.
    now rewrite Hv.
  - cbn [app build_df_filter]. repeat case_decide.
    + destruct (to_dict_item w); cbn [rbind]; [apply IH | reflexivity].
    + destruct (user_class_purposes w); cbn [rbind]; [apply IH | reflexivity].
    + destruct (np_isnan w) as [[|]|]; cbn [rbind]; auto.
    + apply IH.
Qed.

Lemma to_dict_item_unknown (v : cell) :
  v <> CStr "hb" -> v <> CStr "nhb" -> exists e, to_dict_item v = Raise e.
Proof.
  intros H1 H2. destruct v as [z|s|]; cbn [to_dict_item]; eauto.
  unfold to_dict.
  rewrite lookup_insert_ne by congruence.
  rewrite lookup_singleton_ne by congruence. eauto.
Qed.

(** The rows whose trip origin is one of the given values. *)
Lemma filter_df_list
    (nts_data : DataFrame) (m : gmap string filter_val) (k : string)
    (l : list cell) :
  m !! k = None ->
  filter_df nts_data (<[k := FList l]> m) =
  List.filter
    (fun r => from_option (fun c => bool_decide (c ∈ l)) false (col r k))
    (filter_df nts_data m).
Proof.
  intros Hm. unfold filter_df. rewrite <- filter_andb.
  apply filter_ext. intros r. now rewrite row_passes_insert.
Qed.

(** X10: the trip origin ["hb"] selects, among the rows the other
    parameters select, those whose trip origin is ["hb_to"] or
    ["hb_from"], and ["nhb"] those whose trip origin is ["nhb"]; with
    any other trip origin the segment filter raises. *)
Theorem segment_filter_trip_origin
    (nts_data : DataFrame) (pre post : segment_params) :
  (~ In "trip_origin" (map fst (pre ++ post)) ->
   _filter_nts_data nts_data (pre ++ ("trip_origin", CStr "hb") :: post)
   = rmap (List.filter
             (fun r => from_option
                         (fun c => bool_decide (c ∈ [CStr "hb_to"; CStr "hb_from"]))
                         false (col r "trip_origin")))
          (_filter_nts_data nts_data (pre ++ post)) /\
   _filter_nts_data nts_data (pre ++ ("trip_origin", CStr "nhb") :: post)
   = rmap (List.filter
             (fun r => from_option
                         (fun c => bool_decide (c ∈ [CStr "nhb"]))
                         false (col r "trip_origin")))
          (_filter_nts_data nts_data (pre ++ post))) /\
  (forall v,
     v <> CStr "hb" -> v <> CStr "nhb" ->
     is_ok (_filter_nts_data nts_data (pre ++ ("trip_origin", v) :: post))
     = false).
Proof.
  split.
  - intros Hkeys.
    assert (Hpost : ~ In "trip_origin" (map fst post)).
    { intros H. apply Hkeys. rewrite map_app. apply in_or_app. now right. }
    assert (Hgen : forall v l,
               to_dict_item v = Ok l ->
               _filter_nts_data nts_data (pre ++ ("trip_origin", v) :: post)
               = rmap (List.filter
                         (fun r => from_option (fun c => bool_decide (c ∈ l))
                                     false (col r "trip_origin")))
                      (_filter_nts_data nts_data (pre ++ post))).
    { intros v l Hv. unfold _filter_nts_data.
      rewrite (build_df_filter_trip_origin pre post v l ∅ Hv Hpost).
      destruct (build_df_filter (pre ++ post) ∅) as [m|e] eqn:E; [|reflexivity].
      cbn [rmap rbind]. f_equal. apply filter_df_list.
      rewrite (build_df_filter_lookup _ "trip_origin" _ _ Hkeys ltac:(discriminate) E).
      apply lookup_empty. }
    split; apply Hgen; reflexivity.
  - intros v H1 H2. destruct (to_dict_item_unknown v H1 H2) as [e He].
    unfold _filter_nts_data.
    pose proof (build_df_filter_trip_origin_unknown pre post v e ∅ He) as H.
    destruct (build_df_filter (pre ++ ("trip_origin", v) :: post) ∅);
      [discriminate H | reflexivity].
Qed.

Lemma filter_all {A : Type} (p : A -> bool) (l : list A) :
  (forall x, In x l -> p x = true) -> List.filter p l = l.
Proof.
  induction l as [|x l IH]; intros H; [reflexivity|].
  cbn [List.filter]. rewrite (H x) by now left.
  f_equal. apply IH. intros y Hy. apply H. now right.
Qed.

Lemma filter_length_le {A : Type} (p : A -> bool) (l : list A) :
  (length (List.filter p l) <= length l)%nat.
Proof.
  induction l as [|x l IH]; [cbn; lia|].
  cbn [List.filter]. destruct (p x); cbn [length]; lia.
Qed.

(** X11: the segment filter with no parameter returns the data as it
    is.  With any parameters, the rows it returns are rows of the data,
    no more of them than the data has, and filtering them again with the
    same parameters returns them unchanged. *)
Theorem segment_filter_idempotent
    (nts_data : DataFrame) (params : segment_params) (data_subset : DataFrame) :
  _filter_nts_data nts_data [] = Ok nts_data /\
  (_filter_nts_data nts_data params = Ok data_subset ->
   (forall r, In r data_subset -> In r nts_data) /\
   (length data_subset <= length nts_data)%nat /\
   _filter_nts_data data_subset params = Ok data_subset).
Proof.
  split.
  - unfold _filter_nts_data. cbn [build_df_filter rbind]. f_equal.
    apply filter_all. intros r _. unfold row_passes.
    apply bool_decide_eq_true. apply map_Forall_empty.
  - unfold _filter_nts_data.
    destruct (build_df_filter params ∅) as [m|e]; cbn [rbind]; [|discriminate].
    intros H. inversion H; subst data_subset; clear H. unfold filter_df.
    split; [|split].
    + intros r Hr. now apply filter_In in Hr.
    + apply filter_length_le.
    + f_equal. apply filter_twice.
Qed.

End SegmentFilterProperties.

(** ** The cost distribution: more properties *)

Lemma pairwise_length (l : list Q) : length (pairwise l) = (length l - 1)%nat.
Proof.
  induction l as [|a [|b t] IH]; [reflexivity | reflexivity |].
  change (pairwise (a :: b :: t)) with ((a, b) :: pairwise (b :: t)).
  cbn [length] in *. lia.
Qed.

Section DistributionProperties.

Context `{env : Collaborators}.

(** X12: the built distribution keeps the edges and the units it is
    given, counts the rows of the data as its sample size, whatever their
    trip counts, and has one trips value and one mean cost for every
    consecutive pair of edges: none with fewer than two edges. *)
Theorem cost_distribution_shape
    (data : DataFrame) (band_edges : list Q) (output_cost_units : CostUnits) :
  let tld := _build_cost_distribution data band_edges output_cost_units in
  edges tld = band_edges /\
  cost_units tld = output_cost_units /\
  sample_size tld = length data /\
  length (band_trips tld) = (length band_edges - 1)%nat /\
  length (band_mean_cost tld) = (length band_edges - 1)%nat.
Proof.
  unfold _build_cost_distribution.
  cbn [edges cost_units sample_size band_trips band_mean_cost].
  rewrite !length_map, pairwise_length. auto.
Qed.

End DistributionProperties.

(** ** The loop of [build_tld]: more properties *)

Section BuildProperties.

Context `{env : Collaborators}.

Variable tld_data : DataFrame.
Variable bands : list (Q * Q).
Variable segmentation : SegmentationLevel.
Variable out_units : CostUnits.
Variable sample_threshold : Z.

(** What one turn of the loop does to the dictionary of distributions. *)
Lemma build_tld_segment_cases (st st1 : tld_state) (params : segment_params) :
  build_tld_segment tld_data bands segmentation out_units sample_threshold
    st params = Ok st1 ->
  (segment_passes tld_data sample_threshold params = false /\
   name_to_distribution st1 = name_to_distribution st) \/
  (segment_passes tld_data sample_threshold params = true /\
   name_to_distribution st1 =
     <[_generate_tld_name segmentation params :=
         segment_tld tld_data bands out_units params]>
       (name_to_distribution st) /\
   band_edges_of bands =
     Ok (edges (segment_tld tld_data bands out_units params))).
Proof.
  unfold build_tld_segment. intros E.
  destruct (_filter_nts_data tld_data params) as [ds|e] eqn:Ef;
    cbn [rbind] in E; [|discriminate].
  assert (Hsub : segment_subset tld_data params = ds)
    by (unfold segment_subset; now rewrite Ef).
  destruct (Z.of_nat (length ds) <? sample_threshold)%Z eqn:Elt.
  - left. inversion E; subst st1; clear E. split; [|reflexivity].
    unfold segment_passes. now rewrite Ef, Hsub, Elt.
  - right. destruct (band_edges_of bands) as [band_edges|e] eqn:Eb;
      cbn [rbind] in E; [|discriminate].
    inversion E; subst st1; clear E. cbn [name_to_distribution].
    unfold segment_tld. rewrite Hsub, Eb.
    split; [|split; reflexivity].
    unfold segment_passes. now rewrite Ef, Hsub, Elt.
Qed.

Lemma build_tld_loop_app (st : tld_state) (todo1 todo2 : list segment_params) :
  build_tld_loop tld_data bands segmentation out_units sample_threshold
    st (todo1 ++ todo2)
  = rbind (build_tld_loop tld_data bands segmentation out_units
             sample_threshold st todo1)
      (fun st' => build_tld_loop tld_data bands segmentation out_units
                    sample_threshold st' todo2).
Proof.
  revert st. induction todo1 as [|params todo1 IH]; intros st; [reflexivity|].
  cbn [app build_tld_loop].
  destruct (build_tld_segment tld_data bands segmentation out_units
              sample_threshold st params); cbn [rbind]; [apply IH | reflexivity].
Qed.

(** Every distribution of the dictionary was there before the loop or
    is the one of a segment that passed, under the name of that segment. *)
Lemma build_tld_loop_registers
    (todo : list segment_params) (st st' : tld_state)
    (name : string) (tld : CostDistribution CostUnits) :
  build_tld_loop tld_data bands segmentation out_units sample_threshold
    st todo = Ok st' ->
  name_to_distribution st' !! name = Some tld ->
  name_to_distribution st !! name = Some tld \/
  exists params,
    In params todo /\
    segment_passes tld_data sample_threshold params = true /\
    name = _generate_tld_name segmentation params /\
    tld = segment_tld tld_data bands out_units params /\
    band_edges_of bands = Ok (edges tld).
Proof.
  revert st. induction todo as [|params todo IH]; intros st H Hl.
  - cbn in H. inversion H; subst. now left.
  - cbn [build_tld_loop] in H.
    destruct (build_tld_segment tld_data bands segmentation out_units
                sample_threshold st params) as [st1|e] eqn:E;
      cbn [rbind] in H; [|discriminate].
    destruct (IH st1 H Hl) as [Hin|(q & Hq & Hrest)].
    + apply build_tld_segment_cases in E as [[_ Hd]|(Hp & Hd & He)].
      * left. now rewrite <- Hd.
      * rewrite Hd in Hin.
        destruct (decide (_generate_tld_name segmentation params = name))
          as [Hn|Hn].
        -- right. exists params. rewrite <- Hn, lookup_insert_eq in Hin.
           inversion Hin; subst tld. repeat split; auto. now left.
        -- left. now rewrite lookup_insert_ne in Hin.
    + right. exists q. split; [now right | exact Hrest].
Qed.

(** Segments that fail, or pass under another name, leave the
    distribution of a name as it is. *)
Lemma build_tld_loop_keeps
    (todo : list segment_params) (st st' : tld_state) (name : string) :
  build_tld_loop tld_data bands segmentation out_units sample_threshold
    st todo = Ok st' ->
  (forall q, In q todo ->
             segment_passes tld_data sample_threshold q = true ->
             _generate_tld_name segmentation q <> name) ->
  name_to_distribution st' !! name = name_to_distribution st !! name.
Proof.
  revert st. induction todo as [|params todo IH]; intros st H Hq.
  - cbn in H. now inversion H.
  - cbn [build_tld_loop] in H.
    destruct (build_tld_segment tld_data bands segmentation out_units
                sample_threshold st params) as [st1|e] eqn:E;
      cbn [rbind] in H; [|discriminate].
    rewrite (IH st1 H) by (intros q Hin; apply Hq; now right).
    apply build_tld_segment_cases in E as [[_ Hd]|(Hp & Hd & _)].
    + now rewrite Hd.
    + rewrite Hd. apply lookup_insert_ne. apply Hq; [now left | exact Hp].
Qed.

Lemma segment_passes_records (params : segment_params) :
  segment_passes tld_data sample_threshold params = true ->
  (sample_threshold <= Z.of_nat (length (segment_subset tld_data params)))%Z.
Proof.
  unfold segment_passes. intros H. apply andb_true_iff in H as [_ H].
  apply negb_true_iff, Z.ltb_ge in H. exact H.
Qed.

(** X15: every distribution [build_tld] returns is registered under the
    name of a segment of the segmentation, has a sample size of at
    least the sample threshold, the edges derived from the bands table
    and the cost units asked for. *)
Theorem build_tld_distributions (out : tld_output) :
  build_tld tld_data bands segmentation out_units sample_threshold = Ok out ->
  map_Forall
    (fun name tld =>
       (sample_threshold <= Z.of_nat (sample_size tld))%Z /\
       band_edges_of bands = Ok (edges tld) /\
       cost_units tld = out_units /\
       exists params,
         In params (segments segmentation) /\
         name = _generate_tld_name segmentation params)
    (out_name_to_distribution out).
Proof.
  unfold build_tld. intros H.
  destruct (build_tld_loop tld_data bands segmentation out_units
              sample_threshold init_state (segments segmentation))
    as [st|e] eqn:E; cbn [rbind] in H; [|discriminate].
  destruct (pd_concat (full_export st)); cbn [rbind] in H; [|discriminate].
  inversion H; subst out; clear H. cbn [out_name_to_distribution].
  intros name tld Hl.
  destruct (build_tld_loop_registers _ _ _ name tld E Hl)
    as [Hin|(params & Hin & Hp & Hn & Ht & He)].
  - cbn in Hin. rewrite lookup_empty in Hin. discriminate.
  - split; [|split; [exact He|split; [|now exists params]]].
    + subst tld. unfold segment_tld, _build_cost_distribution.
      cbn [sample_size]. now apply segment_passes_records.
    + now subst tld.
Qed.

(** With an empty bands table the loop raises at the first segment
    that passes. *)
Lemma build_tld_loop_no_bands (todo : list segment_params) (st : tld_state) :
  bands = [] ->
  Forall (fun params => is_ok (_filter_nts_data tld_data params) = true) todo ->
  (exists params,
     In params todo /\ segment_passes tld_data sample_threshold params = true) ->
  build_tld_loop tld_data bands segmentation out_units sample_threshold st todo
  = Raise (IndexError "index 0 is out of bounds for axis 0 with size 0").
Proof.
  intros Hb Hok. revert st. induction Hok as [|params todo Hp _ IH];
    intros st (q & Hin & Hq); [destruct Hin|].
  cbn [build_tld_loop].
  destruct (segment_passes tld_data sample_threshold params) eqn:Epass.
  - apply segment_passes_true in Epass as (ds & Ef & Hge).
    unfold build_tld_segment. rewrite Ef. cbn [rbind].
    apply Z.ltb_ge in Hge. rewrite Hge, Hb. reflexivity.
  - destruct (_filter_nts_data tld_data params) as [ds|e] eqn:Ef;
      [|discriminate].
    rewrite (build_tld_segment_failed _ _ _ _ _ _ _ ds Ef).
    + cbn [rbind]. apply IH. exists q. split; [|exact Hq].
      destruct Hin as [->|Hin]; [congruence | exact Hin].
    + unfold segment_passes, segment_subset in Epass. rewrite Ef in Epass.
      cbn [is_ok andb] in Epass. apply negb_false_iff, Z.ltb_lt in Epass.
      exact Epass.
Qed.

(** X17: with a bands table that has no row, [build_tld] raises an
    [IndexError] as soon as a segment reaches the sample threshold,
    instead of returning distributions without bands. *)
Theorem build_tld_empty_bands :
  bands = [] ->
  Forall (fun params => is_ok (_filter_nts_data tld_data params) = true)
    (segments segmentation) ->
  (exists params,
     In params (segments segmentation) /\
     segment_passes tld_data sample_threshold params = true) ->
  build_tld tld_data bands segmentation out_units sample_threshold
  = Raise (IndexError "index 0 is out of bounds for axis 0 with size 0").
Proof.
  intros Hb Hok Hex. unfold build_tld.
  now rewrite (build_tld_loop_no_bands _ init_state Hb Hok Hex).
Qed.

(** X18: the distribution returned under the name of a segment that
    passed is the one of that segment, unless a later segment passes
    under the same name: of the segments that share a name the last one
    that passes is the one registered. *)
Theorem build_tld_registers_last
    (out : tld_output) (before after : list segment_params)
    (params : segment_params) :
  segments segmentation = before ++ params :: after ->
  build_tld tld_data bands segmentation out_units sample_threshold = Ok out ->
  segment_passes tld_data sample_threshold params = true ->
  (forall q, In q after ->
             segment_passes tld_data sample_threshold q = true ->
             _generate_tld_name segmentation q
             <> _generate_tld_name segmentation params) ->
  out_name_to_distribution out !! _generate_tld_name segmentation params
  = Some (segment_tld tld_data bands out_units params).
Proof.
  intros Hsegs H Hp Hafter. unfold build_tld in H. rewrite Hsegs in H.
  rewrite build_tld_loop_app in H.
  destruct (build_tld_loop tld_data bands segmentation out_units
              sample_threshold init_state before) as [st0|e];
    cbn [rbind] in H; [|discriminate].
  cbn [build_tld_loop] in H.
  destruct (build_tld_segment tld_data bands segmentation out_units
              sample_threshold st0 params) as [st1|e] eqn:E;
    cbn [rbind] in H; [|discriminate].
  destruct (build_tld_loop tld_data bands segmentation out_units
              sample_threshold st1 after) as [st2|e] eqn:E2;
    cbn [rbind] in H; [|discriminate].
  destruct (pd_concat (full_export st2)); cbn [rbind] in H; [|discriminate].
  inversion H; subst out; clear H. cbn [out_name_to_distribution].
  rewrite (build_tld_loop_keeps after st1 st2 _ E2 Hafter).
  apply build_tld_segment_cases in E as [[Hf _]|(_ & Hd & _)]; [congruence|].
  rewrite Hd. apply lookup_insert_eq.
Qed.

End BuildProperties.

(** ** The small survey, run *)

#[local] Existing Instance example_env.

(** C1: on the small survey with the sample threshold 2 the segment
    [p = 1] has two rows and passes, the segment [p = 2] has one row and
    fails.  [build_tld] returns a sample size log of one line, the one of
    the segment that passed: the line of the failed segment, whose
    status is set just before the [continue], is never appended, and
    only the warning tells of it. *)
Theorem sample_size_log_drops_failed_segment :
  rmap out_sample_size_log
    (build_tld example_data example_bands example_segmentation Miles 2)
    = Ok [mk_log_line [("p", CInt 1)] 2 "Passed"] /\
  rmap out_warnings
    (build_tld example_data example_bands example_segmentation Miles 2)
    = Ok [mk_warning [("p", CInt 2)] 2 1] /\
  length (segments example_segmentation) = 2%nat /\
  spec_sample_size_log example_data 2 (segments example_segmentation) =
    [mk_log_line [("p", CInt 1)] 2 "Passed";
     mk_log_line [("p", CInt 2)] 1 "Failed"].
Proof.
  split; [vm_compute; reflexivity|].
  split; [vm_compute; reflexivity|].
  split; [reflexivity|].
  vm_compute; reflexivity.
Qed.

(** The scenario of the two bands: 20 trips of mean cost 1 in the band
    from 0 to 2, 5 trips of mean cost 3 in the band from 2 to 5. *)
Example scenario_two_bands :
  Forall2 Qeq
    (band_trips (_build_cost_distribution example_data [0; 2; 5] Miles))
    [20; 5] /\
  Forall2 npfloat_eq
    (band_mean_cost (_build_cost_distribution example_data [0; 2; 5] Miles))
    [Finite 1; Finite 3] /\
  sample_size (_build_cost_distribution example_data [0; 2; 5] Miles) = 3%nat.
Proof.
  split; [|split]; vm_compute; repeat constructor.
Qed.

(** In kilometres the means are scaled and the trips are not. *)
Example scenario_two_bands_km :
  Forall2 Qeq
    (band_trips (_build_cost_distribution example_data [0; 2; 5] Kilometres))
    [20; 5] /\
  Forall2 npfloat_eq
    (band_mean_cost (_build_cost_distribution example_data [0; 2; 5] Kilometres))
    [Finite (1609344 # 1000000); Finite (4828032 # 1000000)].
Proof.
  split; vm_compute; repeat constructor.
Qed.

Lemma distance_in_at_most_one_band_witness :
  strictly_increasing [0; 1; 5] = true /\
  on_edge [0; 1; 5] (1 * 1) = true /\
  selecting_bands [0; 1; 5] (set_dist (survey_row 1 (CInt 2) "hb_from" 1 1 1 10) (1 * 1))
    = [].
Proof.
  split; [reflexivity|]. split; [reflexivity|].
  pose proof (distance_in_at_most_one_band (env := example_env) example_data [0; 1; 5] Miles eq_refl)
    as H.
  exact (proj1 (proj2 (Forall_inv H) eq_refl)).
Defined.



(** The band from 0 to 2 of the small survey takes the division: 20
    trips, and the mean cost 20 / 20.  No record is below 1: the single
    band from 0 to 1 has no trips and the mean cost 0.5. *)
Lemma band_mean_cost_fallback_witness :
  pairwise_of [0; 2; 5]%float !! 0%nat = Some (0, 2)%float /\
  arith_le_zero F64 20%float = false /\
  build_bands_in F64 1%float example_columns [0; 2; 5]%float !! 0%nat
    = Some (Some (20, 20 / 20)%float) /\
  (20 / 20 = 1)%float /\
  pairwise [0; 2; 5] !! 0%nat = Some (0, 2) /\
  band_trips (_build_cost_distribution example_data [0; 2; 5] Miles) !! 0%nat
    = Some 20 /\
  band_mean_cost (_build_cost_distribution example_data [0; 2; 5] Miles) !! 0%nat
    = Some (Finite (20 / 20)) /\
  band_trips (_build_cost_distribution example_data [0; 1] Miles) = [0] /\
  band_mean_cost (_build_cost_distribution example_data [0; 1] Miles)
    = [Finite (1 # 2)] /\
  build_bands_in F64 1%float example_columns [0; 1]%float
    = [Some (0, 0.5)%float].
Proof.
  pose proof (band_mean_cost_fallback (env := example_env)
                F64 1%float example_columns [0; 2; 5]%float 0 0%float 2%float
                example_data [0; 2; 5] Miles 0 0 2
                1%float example_columns)
    as (Hany & Hrat & Hsingle & Hfloat).
  split; [reflexivity|]. split; [reflexivity|].
  split.
  { exact (proj2 (Hany eq_refl 20%float 20%float eq_refl eq_refl) eq_refl). }
  split; [vm_compute; reflexivity|].
  split; [reflexivity|].
  destruct (Hrat eq_refl) as (Htrips & _ & _ & Hdiv & _).
  split; [exact Htrips|].
  split.
  { apply Hdiv; [reflexivity|]. intros H. vm_compute in H. discriminate H. }
  assert (Hnone : forall r, In r example_data ->
            ~ trip_dist r * get_conversion_factor input_cost_units Miles < 1).
  { intros r [<-|[<-|[<-|[]]]] H; vm_compute in H; discriminate H. }
  split; [exact (proj1 (Hsingle Hnone))|].
  split; [exact (proj2 (Hsingle Hnone))|].
  apply Hfloat. intros dc Hdc.
  unfold example_columns in Hdc. cbn [In] in Hdc.
  destruct Hdc as [<-|[<-|[<-|[]]]]; vm_compute; reflexivity.
Defined.



(** The two rows of the segment [p = 1]. *)
Example filter_segment_p1 :
  _filter_nts_data example_data [("p", CInt 1)] = Ok segment_p1.
Proof. vm_compute. reflexivity. Qed.

Example filter_segment_p2 :
  _filter_nts_data example_data [("p", CInt 2)] = Ok segment_p2.
Proof. vm_compute. reflexivity. Qed.

(** With [soc = NaN] the rows of the segment [p = 1] are returned
    whatever their ["soc"], with [soc = 2] only the one with that value. *)
Lemma segment_filter_soc_ns_witness :
  ("soc" = "soc" \/ "soc" = "ns") /\
  List.NoDup (map (fun kv => tested_column (fst kv)) [("p", CInt 1)]) /\
  is_ok (_filter_nts_data example_data [("p", CInt 1)]) = true /\
  ~ In "soc" (map fst [("p", CInt 1)]) /\
  _filter_nts_data example_data [("p", CInt 1); ("soc", CNaN)]
    = _filter_nts_data example_data [("p", CInt 1)] /\
  _filter_nts_data example_data [("p", CInt 1); ("soc", CNaN)]
    = Ok (List.filter (spec_segment_test [("p", CInt 1)]) example_data) /\
  List.filter (spec_segment_test [("p", CInt 1)]) example_data
    = [ survey_row 1 (CInt 2) "hb_from" 1 1 1 10;
        survey_row 1 CNaN "hb_to" 1 2 1 10 ] /\
  _filter_nts_data example_data [("p", CInt 1); ("soc", CInt 2)]
    = Ok (List.filter
            (fun r => spec_segment_test [("p", CInt 1)] r
                      && bool_decide (col r "soc" = Some (CInt 2)))
            example_data) /\
  List.filter
    (fun r => spec_segment_test [("p", CInt 1)] r
              && bool_decide (col r "soc" = Some (CInt 2)))
    example_data
    = [ survey_row 1 (CInt 2) "hb_from" 1 1 1 10 ].
Proof.
  assert (Hd : "soc" = "soc" \/ "soc" = "ns") by (left; reflexivity).
  assert (Hnd : List.NoDup
                  (map (fun kv => tested_column (fst kv)) [("p", CInt 1)])).
  { repeat constructor. intros []. }
  assert (Hok : is_ok (_filter_nts_data example_data [("p", CInt 1)]) = true)
    by now rewrite filter_segment_p1.
  assert (Hk : ~ In "soc" (map fst [("p", CInt 1)])).
  { intros [H|[]]. discriminate H. }
  destruct (segment_filter_soc_ns (env := example_env) example_data
              [("p", CInt 1)] [] "soc" Hd) as (Hnan & Hspec & _).
  destruct (Hspec Hnd Hok) as [Hrows Hexact].
  split; [exact Hd|]. split; [exact Hnd|]. split; [exact Hok|].
  split; [exact Hk|]. split; [exact Hnan|]. split; [exact Hrows|].
  split; [vm_compute; reflexivity|].
  split; [exact (Hexact 2%Z Hk)|].
  vm_compute. reflexivity.
Defined.

Example filter_segment_soc_nan :
  _filter_nts_data example_data [("p", CInt 1); ("soc", CNaN)] =
  Ok [ survey_row 1 (CInt 2) "hb_from" 1 1 1 10;
       survey_row 1 CNaN "hb_to" 1 2 1 10 ] /\
  _filter_nts_data example_data [("p", CInt 1); ("soc", CInt 2)] =
  Ok [ survey_row 1 (CInt 2) "hb_from" 1 1 1 10 ].
Proof. split; vm_compute; reflexivity. Qed.

(** In the area of the small survey, whose only code is 1, a row is kept
    when its column holds the code 1. *)
Lemma geo_filter_modes_witness :
  (exists msg,
     _apply_geo_filter example_data example_area (TRIP_other "HOUSEHOLD")
       = Raise (ValueError msg) /\
     mentions msg (TripFilter_str (TRIP_other "HOUSEHOLD"))) /\
  (forall r,
     bool_decide (col r "TripOrigGOR_B02ID" = Some (CInt 1))
     && bool_decide (col r "TripDestGOR_B02ID" = Some (CInt 1)) = true <->
     in_area example_area "TripOrigGOR_B02ID" r /\
     in_area example_area "TripDestGOR_B02ID" r) /\
  _apply_geo_filter example_data example_area TRIP_OD =
  Ok (List.filter
        (fun r => bool_decide (col r "TripOrigGOR_B02ID" = Some (CInt 1))
                  && bool_decide (col r "TripDestGOR_B02ID" = Some (CInt 1)))
        (map transpose_od example_data)) /\
  List.filter
    (fun r => bool_decide (col r "TripOrigGOR_B02ID" = Some (CInt 1))
              && bool_decide (col r "TripDestGOR_B02ID" = Some (CInt 1)))
    (map transpose_od example_data)
  = [ survey_row 1 (CInt 2) "hb_from" 1 1 1 10 ].
Proof.
  assert (Harea : forall c r,
             bool_decide (col r c = Some (CInt 1)) = true <->
             in_area example_area c r).
  { intros c r. rewrite bool_decide_eq_true. unfold in_area. cbn [get_gors example_area].
    split.
    - intros H. exists (CInt 1). split; [exact H | now left].
    - intros (c' & E & [<-|[]]). exact E. }
  assert (Hkeep : forall r,
             bool_decide (col r "TripOrigGOR_B02ID" = Some (CInt 1))
             && bool_decide (col r "TripDestGOR_B02ID" = Some (CInt 1)) = true <->
             in_area example_area "TripOrigGOR_B02ID" r /\
             in_area example_area "TripDestGOR_B02ID" r).
  { intros r. now rewrite andb_true_iff, !Harea. }
  destruct (geo_filter_modes (env := example_env) example_data example_area
              (TRIP_other "HOUSEHOLD")) as (Herr & _).
  destruct (geo_filter_modes (env := example_env) example_data example_area
              TRIP_OD) as (_ & Hod & _).
  split; [apply Herr; discriminate|].
  split; [exact Hkeep|].
  split; [exact (Hod _ eq_refl Hkeep)|].
  vm_compute. reflexivity.
Defined.

(** The transposed ["hb_to"] row has its origin outside the area: with OD
    and with O only the first row is kept, with D the first two. *)
Example geo_filter_small_survey :
  _apply_geo_filter example_data example_area TRIP_OD =
    Ok [ survey_row 1 (CInt 2) "hb_from" 1 1 1 10 ] /\
  _apply_geo_filter example_data example_area TRIP_O =
    Ok [ survey_row 1 (CInt 2) "hb_from" 1 1 1 10 ] /\
  _apply_geo_filter example_data example_area TRIP_D =
    Ok [ survey_row 1 (CInt 2) "hb_from" 1 1 1 10;
         survey_row 1 CNaN "hb_to" 2 1 1 10 ] /\
  _apply_geo_filter example_data example_area (TRIP_other "HOUSEHOLD") =
    Raise (ValueError
             "Don't know how to apply to filter 'TripFilter.HOUSEHOLD'").
Proof.
  split; [vm_compute; reflexivity|].
  split; [vm_compute; reflexivity|].
  split; vm_compute; reflexivity.
Qed.

Lemma band_edges_first_lower_witness :
  example_bands = (0, 2) :: [(2, 5)] /\
  _filter_nts_data example_data [("p", CInt 1)] = Ok segment_p1 /\
  (2 <= Z.of_nat (length segment_p1))%Z /\
  band_edges_of example_bands = Ok [0; 2; 5] /\
  column_min 0 (map fst [(2, 5)]) == 0.
Proof.
  destruct (band_edges_first_lower (env := example_env)
              example_data example_bands example_segmentation Miles 2
              init_state [("p", CInt 1)] segment_p1 0 2 [(2, 5)]
              eq_refl filter_segment_p1 ltac:(cbn; lia))
    as (Hedges & _ & _ & Hmin).
  split; [reflexivity|]. split; [exact filter_segment_p1|].
  split; [cbn; lia|]. split; [exact Hedges|].
  apply Hmin. repeat constructor. intros H; discriminate H.
Defined.

(** The claim C2 without its amendment fails: on a bands table that is
    not in the order of its column ["lower"] the edge array starts with
    the first value of that column, 2, and not with its minimum, 0; the
    distribution [build_tld] registers has these edges. *)
Lemma band_edges_first_lower_counterexample :
  band_edges_of unordered_bands = Ok [2; 5; 2] /\
  spec_band_edges unordered_bands = Ok [0; 5; 2] /\
  ~ Forall2 Qeq [2; 5; 2] [0; 5; 2] /\
  rmap (fun out =>
          option_map edges
            (out_name_to_distribution out !! "cost_distribution_p1"))
    (build_tld example_data unordered_bands example_segmentation Miles 2)
    = Ok (Some [2; 5; 2]).
Proof.
  split; [reflexivity|]. split; [vm_compute; reflexivity|]. split.
  - intros H. inversion H as [|? ? ? ? Hhd _]; subst. discriminate Hhd.
  - vm_compute. reflexivity.
Qed.

Lemma build_tld_empty_export_witness :
  (exists e,
     build_tld example_data example_bands example_segmentation Miles 5
       = Raise e /\
     e = ValueError "No objects to concatenate") /\
  (exists out,
     build_tld example_data example_bands example_segmentation Miles 2
       = Ok out /\
     out_full_export out =
       concat
         (map (fun params =>
                 to_df (segment_tld example_data example_bands Miles params)
                   params)
            (List.filter (segment_passes example_data 2)
               (segments example_segmentation)))).
Proof.
  assert (Hok : Forall
                  (fun params => is_ok (_filter_nts_data example_data params) = true)
                  (segments example_segmentation)).
  { constructor; [now rewrite filter_segment_p1|].
    constructor; [now rewrite filter_segment_p2|]. constructor. }
  split.
  - destruct (proj1 (build_tld_empty_export (env := example_env)
                       example_data example_bands example_segmentation Miles 5))
      as (e & He & Hmsg).
    + intros params ds [<-|[<-|[]]] E.
      * rewrite filter_segment_p1 in E. inversion E. cbn. lia.
      * rewrite filter_segment_p2 in E. inversion E. cbn. lia.
    + exists e. split; [exact He | exact (Hmsg Hok)].
  - apply (proj2 (build_tld_empty_export (env := example_env)
                    example_data example_bands example_segmentation Miles 2)).
    + discriminate.
    + exact Hok.
    + exists [("p", CInt 1)], segment_p1.
      split; [now left|]. split; [exact filter_segment_p1 | cbn; lia].
Defined.

Lemma threshold_boundary_witness :
  _filter_nts_data example_data [("p", CInt 1)] = Ok segment_p1 /\
  Z.of_nat (length segment_p1) = 2%Z /\
  (exists st',
     build_tld_segment example_data example_bands example_segmentation Miles 2
       init_state [("p", CInt 1)] = Ok st' /\
     name_to_distribution st' !! "cost_distribution_p1"
       = Some (_build_cost_distribution segment_p1 [0; 2; 5] Miles) /\
     sample_size_log st' = [mk_log_line [("p", CInt 1)] 2 "Passed"]) /\
  build_tld_segment example_data [] example_segmentation Miles 2
    init_state [("p", CInt 1)]
  = Raise (IndexError "index 0 is out of bounds for axis 0 with size 0") /\
  (exists st',
     build_tld_segment example_data example_bands example_segmentation Miles 3
       init_state [("p", CInt 1)] = Ok st' /\
     sample_size_log st' = [] /\ full_export st' = [] /\
     warnings st' = [mk_warning [("p", CInt 1)] 3 2] /\
     build_tld_loop example_data example_bands example_segmentation Miles 3
       init_state [[("p", CInt 1)]; [("p", CInt 2)]]
     = build_tld_loop example_data example_bands example_segmentation Miles 3
         st' [[("p", CInt 2)]]).
Proof.
  split; [exact filter_segment_p1|]. split; [reflexivity|]. split; [|split].
  - destruct (proj1 (proj1 (threshold_boundary (env := example_env)
                       example_data example_bands example_segmentation Miles 2
                       init_state [("p", CInt 1)] [] segment_p1
                       filter_segment_p1)
                eq_refl) 0 2 [(2, 5)] eq_refl) as (Hstep & Hreg & _).
    eexists. split; [exact Hstep|]. split; [exact Hreg | reflexivity].
  - exact (proj1 (proj2 (proj1 (threshold_boundary (env := example_env)
                       example_data [] example_segmentation Miles 2
                       init_state [("p", CInt 1)] [] segment_p1
                       filter_segment_p1)
                eq_refl) eq_refl)).
  - destruct (proj2 (threshold_boundary (env := example_env)
                       example_data example_bands example_segmentation Miles 3
                       init_state [("p", CInt 1)] [[("p", CInt 2)]] segment_p1
                       filter_segment_p1)
                eq_refl) as (Hstep & Hloop).
    eexists. split; [exact Hstep|].
    split; [reflexivity|]. split; [reflexivity|]. split; [reflexivity|].
    exact Hloop.
Defined.

(** The claim C6 without its amendment fails: on the small survey with
    the sample threshold 2 the segment [p = 1] passes, and [build_tld]
    raises all the same: with a bands table of no row the derivation of
    the edges raises [IndexError], and with a later segment whose trip
    origin [to_dict] does not hold the segment filter raises
    [KeyError]. *)
Lemma build_tld_empty_export_counterexample :
  (In [("p", CInt 1)] (segments example_segmentation) /\
   segment_passes example_data 2 [("p", CInt 1)] = true /\
   build_tld example_data [] example_segmentation Miles 2
   = Raise (IndexError "index 0 is out of bounds for axis 0 with size 0")) /\
  (In [("p", CInt 1)] (segments unknown_origin_segmentation) /\
   segment_passes example_data 2 [("p", CInt 1)] = true /\
   build_tld example_data example_bands unknown_origin_segmentation Miles 2
   = Raise (KeyError "home")).
Proof.
  split.
  - split; [now left|]. split; vm_compute; reflexivity.
  - split; [now left|]. split; vm_compute; reflexivity.
Qed.

(** The claim C7 without its amendment fails: the segment [p = 1] of the
    small survey has exactly 2 rows, and with the sample threshold 2 and
    a bands table of no row no cost distribution is built or registered
    for it: its turn of the loop raises [IndexError], and so does
    [build_tld]. *)
Lemma threshold_boundary_counterexample :
  _filter_nts_data example_data [("p", CInt 1)] = Ok segment_p1 /\
  Z.of_nat (length segment_p1) = 2%Z /\
  build_tld_segment example_data [] example_segmentation Miles 2
    init_state [("p", CInt 1)]
  = Raise (IndexError "index 0 is out of bounds for axis 0 with size 0") /\
  rmap out_name_to_distribution
    (build_tld example_data [] example_segmentation Miles 2)
  = Raise (IndexError "index 0 is out of bounds for axis 0 with size 0").
Proof.
  split; [vm_compute; reflexivity|]. split; [reflexivity|].
  split; vm_compute; reflexivity.
Qed.


(** ** The small survey: names, paths and copies *)

#[local] Existing Instance example_out.

Lemma get_name_and_fname_round_trip_witness :
  str_in ".csv" "bands" = false /\
  _get_name_and_fname "bands" = ("bands.csv", "bands") /\
  _get_name_and_fname "bands.csv" = ("bands.csv", "bands").
Proof.
  split; [reflexivity|].
  exact (get_name_and_fname_round_trip "bands" eq_refl).
Defined.

(** A name that holds the extension in its middle loses every
    occurrence of it. *)
Example get_name_and_fname_inner_extension :
  _get_name_and_fname "a.csv.old.csv" = ("a.csv.old.csv", "a.old").
Proof. reflexivity. Qed.

Lemma build_output_path_extension_witness :
  str_in ".csv" "bands" = false /\
  build_output_path (out := example_out) "out" example_area TRIP_OD "bands.csv"
    example_segmentation example_period Miles
  = build_output_path (out := example_out) "out" example_area TRIP_OD "bands"
      example_segmentation example_period Miles.
Proof.
  split; [reflexivity|].
  exact (build_output_path_extension (out := example_out) "out" example_area
           TRIP_OD "bands" example_segmentation example_period Miles eq_refl).
Defined.

Example build_output_path_small_survey :
  build_output_path (out := example_out) "out" example_area TRIP_OD "bands.csv"
    example_segmentation example_period Miles
  = "out/north/trip_OD/bands/p/weekday/miles".
Proof. reflexivity. Qed.

Lemma copy_across_tps_names_witness :
  Forall (fun params =>
            str_in ".csv" (_generate_tld_name example_segmentation params) = false)
         (segments example_segmentation) /\
  copy_across_tps (out := example_out) "out" example_area TRIP_OD "bands" example_segmentation
    example_period Miles
  = flat_map
      (fun params =>
         let name := _generate_tld_name example_segmentation params in
         map (fun tp =>
                (path_div (OutputCollaborators := example_out)
                   (build_output_path (out := example_out) "out" example_area TRIP_OD "bands"
                      example_segmentation example_period Miles)
                   (name ++ ".csv"),
                 path_div
                   (path_div
                      (build_output_path (out := example_out) "out" example_area TRIP_OD "bands"
                         example_segmentation example_period Miles)
                      "tp_copied")
                   (name ++ "_tp" ++ pretty tp ++ ".csv")))
             (get_time_periods example_period))
      (segments example_segmentation).
Proof.
  assert (H : Forall (fun params =>
                        str_in ".csv"
                          (_generate_tld_name example_segmentation params) = false)
                (segments example_segmentation)).
  { constructor; [reflexivity|]. constructor; [reflexivity|]. constructor. }
  split; [exact H|].
  exact (proj1 (copy_across_tps_names (out := example_out) "out" example_area
                  TRIP_OD "bands" example_segmentation example_period Miles H)).
Defined.

(** One file copied across the four time periods gives four files. *)
Example copy_across_tps_small_survey :
  map snd
    (List.filter
       (fun copy => bool_decide
          (fst copy = "out/north/trip_OD/bands/p/weekday/miles/cost_distribution_p1.csv"))
       (copy_across_tps (out := example_out) "out" example_area TRIP_OD "bands" example_segmentation
          example_period Miles))
  = [ "out/north/trip_OD/bands/p/weekday/miles/tp_copied/cost_distribution_p1_tp1.csv";
      "out/north/trip_OD/bands/p/weekday/miles/tp_copied/cost_distribution_p1_tp2.csv";
      "out/north/trip_OD/bands/p/weekday/miles/tp_copied/cost_distribution_p1_tp3.csv";
      "out/north/trip_OD/bands/p/weekday/miles/tp_copied/cost_distribution_p1_tp4.csv" ].
Proof. vm_compute. reflexivity. Qed.

(** ** The small survey: filters *)

Lemma od_geo_filter_transposition_witness :
  is_od_type TRIP_OD = true /\
  _apply_geo_filter example_data example_area TRIP_OD
  = Ok (map transpose_od
          (List.filter
             (fun r => isin_gors example_area orig_gor_col r
                       && isin_gors example_area dest_gor_col r)
             example_data)) /\
  rbind (_apply_geo_filter example_data example_area TRIP_OD)
    (fun d => _apply_geo_filter d example_area TRIP_OD)
  = Ok (List.filter
          (fun r => isin_gors example_area orig_gor_col r
                    && isin_gors example_area dest_gor_col r)
          example_data).
Proof.
  split; [reflexivity|].
  exact (proj2 (od_geo_filter_transposition (env := example_env)
                  example_data example_area) eq_refl).
Defined.

Lemma geo_filter_hb_to_rows_witness :
  is_od_type TRIP_O = true /\
  _apply_geo_filter example_data example_area TRIP_O
  = Ok (map transpose_od
          (List.filter
             (fun r => if hb_to_mask r
                       then isin_gors example_area dest_gor_col r
                       else isin_gors example_area orig_gor_col r)
             example_data)).
Proof.
  split; [reflexivity|].
  exact (proj1 (geo_filter_hb_to_rows (env := example_env)
                  example_data example_area) eq_refl).
Defined.

Lemma segment_filter_trip_origin_witness :
  ~ In "trip_origin" (map fst [("p", CInt 1)]) /\
  _filter_nts_data example_data [("p", CInt 1); ("trip_origin", CStr "hb")]
  = rmap (List.filter
            (fun r => from_option
                        (fun c => bool_decide (c ∈ [CStr "hb_to"; CStr "hb_from"]))
                        false (col r "trip_origin")))
         (_filter_nts_data example_data [("p", CInt 1)]) /\
  is_ok (_filter_nts_data example_data
           [("p", CInt 1); ("trip_origin", CStr "home")]) = false.
Proof.
  assert (Hk : ~ In "trip_origin" (map fst [("p", CInt 1)])).
  { intros [H|[]]. discriminate H. }
  destruct (segment_filter_trip_origin (env := example_env) example_data
              [("p", CInt 1)] []) as [Hexp Hraise].
  split; [exact Hk|]. split.
  - exact (proj1 (Hexp Hk)).
  - apply Hraise; discriminate.
Defined.

Lemma segment_filter_idempotent_witness :
  _filter_nts_data example_data [("p", CInt 1)] = Ok segment_p1 /\
  _filter_nts_data segment_p1 [("p", CInt 1)] = Ok segment_p1.
Proof.
  split; [exact filter_segment_p1|].
  exact (proj2 (proj2 (proj2 (segment_filter_idempotent (env := example_env)
                                example_data [("p", CInt 1)] segment_p1)
                         filter_segment_p1))).
Defined.

(** A purpose before a user class is not filtered on: the business
    purposes are 2 and 12, and the rows of purpose 1 are not returned. *)
Example segment_filter_uc_small_survey :
  _filter_nts_data example_data [("p", CInt 1); ("uc", CStr "business")]
  = Ok segment_p2.
Proof. vm_compute. reflexivity. Qed.

(** ** The small survey: distributions *)

Lemma build_tld_distributions_witness :
  match build_tld example_data example_bands example_segmentation Miles 2 with
  | Ok out =>
      map_Forall
        (fun name tld =>
           (2 <= Z.of_nat (sample_size tld))%Z /\
           band_edges_of example_bands = Ok (edges tld) /\
           cost_units tld = Miles /\
           exists params,
             In params (segments example_segmentation) /\
             name = _generate_tld_name example_segmentation params)
        (out_name_to_distribution out)
  | Raise _ => False
  end.
Proof.
  destruct (build_tld (env := example_env) example_data example_bands example_segmentation Miles 2)
    as [out|e] eqn:E.
  - exact (build_tld_distributions (env := example_env) example_data
             example_bands example_segmentation Miles 2 out E).
  - vm_compute in E. discriminate E.
Defined.

Lemma build_tld_empty_bands_witness :
  Forall (fun params => is_ok (_filter_nts_data example_data params) = true)
    (segments example_segmentation) /\
  segment_passes example_data 2 [("p", CInt 1)] = true /\
  build_tld example_data [] example_segmentation Miles 2
  = Raise (IndexError "index 0 is out of bounds for axis 0 with size 0").
Proof.
  assert (Hok : Forall
                  (fun params => is_ok (_filter_nts_data example_data params) = true)
                  (segments example_segmentation)).
  { constructor; [now rewrite filter_segment_p1|].
    constructor; [now rewrite filter_segment_p2|]. constructor. }
  assert (Hp : segment_passes example_data 2 [("p", CInt 1)] = true).
  { unfold segment_passes, segment_subset. now rewrite filter_segment_p1. }
  split; [exact Hok|]. split; [exact Hp|].
  apply (build_tld_empty_bands (env := example_env) example_data []
           example_segmentation Miles 2 eq_refl Hok).
  exists [("p", CInt 1)]. split; [now left | exact Hp].
Defined.

(** The two segments of [same_name_segmentation] pass with the sample
    threshold 1 under one name: the distribution returned is the one of
    the second, with its one record. *)
Lemma build_tld_registers_last_witness :
  match build_tld example_data example_bands same_name_segmentation Miles 1 with
  | Ok out =>
      out_name_to_distribution out !! "cost_distribution"
      = Some (segment_tld example_data example_bands Miles [("p", CInt 2)])
  | Raise _ => False
  end.
Proof.
  destruct (build_tld (env := example_env) example_data example_bands same_name_segmentation Miles 1)
    as [out|e] eqn:E.
  - apply (build_tld_registers_last (env := example_env) example_data
             example_bands same_name_segmentation Miles 1 out
             [[("p", CInt 1)]] [] [("p", CInt 2)] eq_refl E).
    + unfold segment_passes, segment_subset. now rewrite filter_segment_p2.
    + intros q [].
  - vm_compute in E. discriminate E.
Defined.
